(** * Optical-store POS backend: order workflow, stock adjustment, status updates

    A shallow embedding of [backend/models.py], [backend/error_handlers.py],
    [backend/routers/pos.py], [backend/routers/inventory.py] and
    [backend/routers/lab_orders.py].

    - Python [int] is [Z]; Python [float] is IEEE binary64, here [PrimFloat.float];
      [str] is [string]; [Optional[T]] is [option T]; [datetime] is a clock
      reading in [Z].
    - A table with a primary key is a [gmap] from the key to the row; the
      association table [order_items], which has none, is a list of rows.
    - A handler runs in the monad [M]: the SQLAlchemy session (the committed
      database and the session's working copy of it) is threaded through, and
      a raised exception keeps the session as it was when it was raised, as
      Python does. *)

From Stdlib Require Import ZArith Floats.
From stdpp Require Import gmap strings list fin_maps pretty.

Local Open Scope Z_scope.

(** ** Python values the handlers rely on *)

(** The exceptions a handler can raise.  [detail] of an [HTTPException] is
    either a message or [str(e)] of a caught exception, which is kept
    symbolic ([Str e]): its text is the web framework's business. *)
Inductive exn : Type :=
  | HTTPException (status_code : Z) (detail : Detail)
  | AttributeError (type_name attr : string)
  | OverflowError (msg : string)
  | SQLAlchemyError (msg : string)
with Detail : Type :=
  | Text (s : string)
  | Str (e : exn).

(** What the name [status] is bound to where a handler evaluates
    [status.HTTP_...]: the module [fastapi.status] imported at the top of each
    router, or, in a handler that has a parameter [status: str], that string. *)
Inductive pyobj : Type :=
  | fastapi_status
  | PyStr (s : string).

Definition HTTP_201_CREATED : Z := 201.
Definition HTTP_400_BAD_REQUEST : Z := 400.
Definition HTTP_404_NOT_FOUND : Z := 404.
Definition HTTP_422_UNPROCESSABLE_ENTITY : Z := 422.
Definition HTTP_500_INTERNAL_SERVER_ERROR : Z := 500.

(** Attribute lookup [o.attr] for the attributes the handlers read. *)
Definition getattr (o : pyobj) (attr : string) : exn + Z :=
  match o with
  | fastapi_status =>
      if String.eqb attr "HTTP_201_CREATED" then inr HTTP_201_CREATED
      else if String.eqb attr "HTTP_400_BAD_REQUEST" then inr HTTP_400_BAD_REQUEST
      else if String.eqb attr "HTTP_404_NOT_FOUND" then inr HTTP_404_NOT_FOUND
      else if String.eqb attr "HTTP_422_UNPROCESSABLE_ENTITY"
           then inr HTTP_422_UNPROCESSABLE_ENTITY
      else if String.eqb attr "HTTP_500_INTERNAL_SERVER_ERROR"
           then inr HTTP_500_INTERNAL_SERVER_ERROR
      else inl (AttributeError "module" attr)
  | PyStr _ => inl (AttributeError "str" attr)
  end.

(** [float(z)] for a Python int: round to nearest even, and [OverflowError]
    when the result is not finite. *)
Definition float_of_int (z : Z) : exn + float :=
  let f := SF2Prim (binary_normalize prec emax z 0 false) in
  if is_infinity f then inl (OverflowError "int too large to convert to float")
  else inr f.

(** [x * n] for a float [x] and an int [n]: the int is converted first. *)
Definition float_mul_int (x : float) (n : Z) : exn + float :=
  match float_of_int n with
  | inl e => inl e
  | inr f => inr (PrimFloat.mul x f)
  end.

(** [', '.join(l)] *)
Definition join (sep : string) (l : list string) : string := String.concat sep l.

(** ** models.py *)

Module Product.
Record t : Type := mk {
  id : Z;
  name : string;
  description : option string;
  price : float;
  stock : Z;
  created_at : Z;
  updated_at : Z
}.
Definition set_stock (v : Z) (p : t) : t :=
  mk (id p) (name p) (description p) (price p) v (created_at p) (updated_at p).
Definition set_updated_at (v : Z) (p : t) : t :=
  mk (id p) (name p) (description p) (price p) (stock p) (created_at p) v.
End Product.

Module Order.
Record t : Type := mk {
  id : Z;
  user_id : option Z;
  total_amount : float;
  status : string;
  created_at : Z;
  updated_at : Z
}.
Definition set_status (v : string) (o : t) : t :=
  mk (id o) (user_id o) (total_amount o) v (created_at o) (updated_at o).
Definition set_updated_at (v : Z) (o : t) : t :=
  mk (id o) (user_id o) (total_amount o) (status o) (created_at o) v.
End Order.

(** A row of the association table [order_items]. *)
Module order_items.
Record t : Type := mk {
  order_id : Z;
  product_id : Z;
  quantity : option Z;
  price_at_time : option float
}.
End order_items.

Module PrescriptionBase.
Record t : Type := mk {
  right_eye_sphere : string;
  right_eye_cylinder : string;
  right_eye_axis : string;
  right_eye_add : option string;
  left_eye_sphere : string;
  left_eye_cylinder : string;
  left_eye_axis : string;
  left_eye_add : option string;
  material : string;
  treatment : string;
  requires_add : bool;
  notes : option string
}.
End PrescriptionBase.

Module Prescription.
Record t : Type := mk {
  id : Z;
  order_id : Z;
  fields : PrescriptionBase.t;
  created_at : Z;
  updated_at : Z
}.
End Prescription.

Module LabOrder.
Record t : Type := mk {
  id : Z;
  prescription_id : Z;
  status : string;
  notes : option string;
  created_at : Z;
  updated_at : Z
}.
Definition set_status (v : string) (o : t) : t :=
  mk (id o) (prescription_id o) v (notes o) (created_at o) (updated_at o).
Definition set_updated_at (v : Z) (o : t) : t :=
  mk (id o) (prescription_id o) (status o) (notes o) (created_at o) v.
End LabOrder.

(** The request bodies (pydantic models). *)
Module ProductCreate.
Record t : Type := mk {
  name : string;
  description : option string;
  price : float;
  stock : Z
}.
End ProductCreate.

Module OrderItemBase.
Record t : Type := mk {
  product_id : Z;
  quantity : Z
}.
End OrderItemBase.

Module OrderCreate.
Record t : Type := mk {
  items : list OrderItemBase.t;
  prescription : option PrescriptionBase.t
}.
End OrderCreate.

(** The response body declared for the order endpoints: [user_id: int] is a
    required field. *)
Module OrderResponse.
Record t : Type := mk {
  id : Z;
  user_id : Z;
  total_amount : float;
  status : string;
  created_at : Z;
  updated_at : Z;
  prescription : option Prescription.t
}.
(** Reading the fields off an ORM order ([orm_mode]): a field declared
    [int] does not take [None]. *)
Definition from_orm (o : Order.t) (p : option Prescription.t) : option t :=
  match Order.user_id o with
  | None => None
  | Some u =>
      Some (mk (Order.id o) u (Order.total_amount o) (Order.status o)
               (Order.created_at o) (Order.updated_at o) p)
  end.
End OrderResponse.

(** ** The database and the session *)

Record Database : Type := mkDatabase {
  products : gmap Z Product.t;
  orders : gmap Z Order.t;
  order_items_rows : list order_items.t;
  prescriptions : gmap Z Prescription.t;
  lab_orders : gmap Z LabOrder.t
}.

Definition with_products (f : gmap Z Product.t → gmap Z Product.t) (d : Database) : Database :=
  mkDatabase (f (products d)) (orders d) (order_items_rows d) (prescriptions d) (lab_orders d).
Definition with_orders (f : gmap Z Order.t → gmap Z Order.t) (d : Database) : Database :=
  mkDatabase (products d) (f (orders d)) (order_items_rows d) (prescriptions d) (lab_orders d).
Definition with_order_items (f : list order_items.t → list order_items.t) (d : Database) : Database :=
  mkDatabase (products d) (orders d) (f (order_items_rows d)) (prescriptions d) (lab_orders d).
Definition with_prescriptions (f : gmap Z Prescription.t → gmap Z Prescription.t) (d : Database) : Database :=
  mkDatabase (products d) (orders d) (order_items_rows d) (f (prescriptions d)) (lab_orders d).
Definition with_lab_orders (f : gmap Z LabOrder.t → gmap Z LabOrder.t) (d : Database) : Database :=
  mkDatabase (products d) (orders d) (order_items_rows d) (prescriptions d) (f (lab_orders d)).

(** The key an autoincrementing primary key gives the next inserted row: one
    more than the largest key in use (1 in an empty table). *)
Definition next_id {A : Type} (m : gmap Z A) : Z :=
  1 + map_fold (λ k _ acc, Z.max k acc) 0 m.

(** What a request sees of the world besides the database: the clock
    ([datetime.utcnow()], read once per request) and whether the storage
    layer refuses the transaction, and with which message.  A refusal
    surfaces at [db.commit()]; in every handler here one raised earlier, by
    [db.flush()], would take the same [except] clause. *)
Record Env : Type := mkEnv {
  utcnow : Z;
  commit_error : option string
}.

(** A session: the committed database and the working copy the handler reads
    and writes until it commits or rolls back. *)
Record Session : Type := mkSession {
  committed : Database;
  pending : Database
}.

Definition M (A : Type) : Type := Session → (exn + A) * Session.

Definition ret {A : Type} (a : A) : M A := λ s, (inr a, s).
Definition raise {A : Type} (e : exn) : M A := λ s, (inl e, s).
Definition bind {A B : Type} (m : M A) (k : A → M B) : M B :=
  λ s, match m s with
       | (inr a, s') => k a s'
       | (inl e, s') => (inl e, s')
       end.
(** [try: body except Exception as e: handler(e)] *)
Definition try_except {A : Type} (body : M A) (handler : exn → M A) : M A :=
  λ s, match body s with
       | (inr a, s') => (inr a, s')
       | (inl e, s') => handler e s'
       end.
(** A pure computation that may raise. *)
Definition lift {A : Type} (r : exn + A) : M A := λ s, (r, s).

Notation "x <- m ;; k" := (bind m (λ x, k))
  (at level 100, m at next level, right associativity).
Notation "m ;;; k" := (bind m (λ _, k))
  (at level 100, right associativity).

Definition get_pending : M Database := λ s, (inr (pending s), s).
Definition modify_pending (f : Database → Database) : M unit :=
  λ s, (inr tt, mkSession (committed s) (f (pending s))).

(** [db.commit()] *)
Definition db_commit (env : Env) : M unit :=
  λ s, match commit_error env with
       | Some msg => (inl (SQLAlchemyError msg), s)
       | None => (inr tt, mkSession (pending s) (pending s))
       end.
(** [db.rollback()] *)
Definition db_rollback : M unit :=
  λ s, (inr tt, mkSession (committed s) (committed s)).

(** Modelled from the spec: [get_db] of [backend/database.py], which is not
    among the sources.  "Each inbound request is handled independently": the
    handler gets a session of its own on the database, and what it has not
    committed when it returns or raises is gone with the session. *)
Definition run {A : Type} (m : M A) (db : Database) : (exn + A) * Database :=
  let (r, s) := m (mkSession db db) in (r, committed s).

(** ** The ORM operations the handlers use *)

(** [db.query(Product).filter(Product.id == pid).first()] *)
Definition query_product (pid : Z) : M (option Product.t) :=
  d <- get_pending ;; ret (products d !! pid).

(** [db.query(Product).filter(Product.name == n).first()] *)
Definition query_product_by_name (n : string) : M (option Product.t) :=
  d <- get_pending ;;
  ret (snd <$> List.find (λ kv, String.eqb (Product.name (snd kv)) n)
                         (map_to_list (products d))).

(** [db.query(Order).filter(Order.id == oid).first()] *)
Definition query_order (oid : Z) : M (option Order.t) :=
  d <- get_pending ;; ret (orders d !! oid).

(** [db.query(LabOrder).filter(LabOrder.id == lid).first()] *)
Definition query_lab_order (lid : Z) : M (option LabOrder.t) :=
  d <- get_pending ;; ret (lab_orders d !! lid).

(** Assigning [stock] on a loaded product.  The column [updated_at] has
    [onupdate=datetime.utcnow]: the UPDATE the session issues for a changed
    value stamps it; an assignment of the value the row already has issues
    none.  The value compared with is the working one, as under the
    session's default autoflush, where the next query of the loop flushes
    the assignment made before it. *)
Definition write_stock (env : Env) (v : Z) (p : Product.t) : Product.t :=
  if Product.stock p =? v then p
  else Product.set_updated_at (utcnow env) (Product.set_stock v p).

Definition assign_stock (env : Env) (pid : Z) (v : Z) : M unit :=
  modify_pending (with_products (alter (write_stock env v) pid)).

(** [db_order = Order(total_amount=..., status=..., products=order_products);
    db.add(db_order); db.flush()].  The order gets its key; [user_id] is not
    given and stays NULL; [created_at] and [updated_at] take their column
    default.  [order_products] holds references to the loaded products (here
    their keys); for each the relationship [products] adds a row to the
    association table, made of the two keys only. *)
Definition add_order (env : Env) (total_amount : float) (status : string)
    (order_products : list Z) : M Order.t :=
  d <- get_pending ;;
  let oid := next_id (orders d) in
  let db_order := Order.mk oid None total_amount status (utcnow env) (utcnow env) in
  modify_pending (λ d,
    with_order_items (λ rows, rows ++ map (λ pid, order_items.mk oid pid None None) order_products)
      (with_orders (insert oid db_order) d)) ;;;
  ret db_order.

(** [prescription = Prescription(order_id=..., **payload.dict());
    db.add(prescription); db_order.prescription = prescription] *)
Definition add_prescription (env : Env) (order_id : Z) (payload : PrescriptionBase.t) : M unit :=
  d <- get_pending ;;
  let rid := next_id (prescriptions d) in
  modify_pending
    (with_prescriptions
       (insert rid (Prescription.mk rid order_id payload (utcnow env) (utcnow env)))).

(** [db.refresh(obj)]: the row is read again; it raises when the row is gone. *)
Definition refresh_product (pid : Z) : M Product.t :=
  d <- get_pending ;;
  match products d !! pid with
  | Some p => ret p
  | None => raise (SQLAlchemyError "Could not refresh instance")
  end.
Definition refresh_order (oid : Z) : M Order.t :=
  d <- get_pending ;;
  match orders d !! oid with
  | Some o => ret o
  | None => raise (SQLAlchemyError "Could not refresh instance")
  end.
Definition refresh_lab_order (lid : Z) : M LabOrder.t :=
  d <- get_pending ;;
  match lab_orders d !! lid with
  | Some o => ret o
  | None => raise (SQLAlchemyError "Could not refresh instance")
  end.

(** [raise HTTPException(status_code=<status>.<attr>, detail=...)], with
    [status] bound to [o]: the status code is evaluated first. *)
Definition raise_http {A : Type} (o : pyobj) (attr : string) (detail : Detail) : M A :=
  c <- lift (getattr o attr) ;; raise (HTTPException c detail).

(** ** error_handlers.py *)

Record JSONResponse : Type := mkJSONResponse {
  response_status_code : Z;
  response_detail : Detail
}.

Definition sqlalchemy_error_handler (e : exn) : JSONResponse :=
  mkJSONResponse HTTP_500_INTERNAL_SERVER_ERROR (Text "Database error occurred").

Definition general_exception_handler (e : exn) : JSONResponse :=
  mkJSONResponse HTTP_500_INTERNAL_SERVER_ERROR (Text "An unexpected error occurred").

(** The response the application gives for an exception a handler raised:
    an [HTTPException] carries its own status and detail, and
    [register_error_handlers] sends the others to the handlers above. *)
Definition error_response (e : exn) : JSONResponse :=
  match e with
  | HTTPException c d => mkJSONResponse c d
  | SQLAlchemyError _ => sqlalchemy_error_handler e
  | _ => general_exception_handler e
  end.

(** ** routers/pos.py *)

(** One turn of the loop [for item in order.items] of [create_order], on the
    running [total_amount] and [order_products]. *)
Definition process_item (env : Env) (item : OrderItemBase.t)
    (acc : float * list Z) : M (float * list Z) :=
  let '(total_amount, order_products) := acc in
  product <- query_product (OrderItemBase.product_id item) ;;
  match product with
  | None =>
      raise_http fastapi_status "HTTP_404_NOT_FOUND"
        (Text ("Product with id " +:+ pretty (OrderItemBase.product_id item) +:+ " not found"))
  | Some product =>
      if Product.stock product <? OrderItemBase.quantity item then
        raise_http fastapi_status "HTTP_400_BAD_REQUEST"
          (Text ("Insufficient stock for product " +:+ Product.name product))
      else
        assign_stock env (OrderItemBase.product_id item)
          (Product.stock product - OrderItemBase.quantity item) ;;;
        amount <- lift (float_mul_int (Product.price product) (OrderItemBase.quantity item)) ;;
        ret (PrimFloat.add total_amount amount,
             order_products ++ [OrderItemBase.product_id item])
  end.

Fixpoint process_items (env : Env) (items : list OrderItemBase.t)
    (acc : float * list Z) : M (float * list Z) :=
  match items with
  | [] => ret acc
  | item :: rest => acc' <- process_item env item acc ;; process_items env rest acc'
  end.

Definition create_order (env : Env) (order : OrderCreate.t) : M Order.t :=
  try_except
    (acc <- process_items env (OrderCreate.items order) (0%float, []) ;;
     db_order <- add_order env (fst acc) "pending" (snd acc) ;;
     match OrderCreate.prescription order with
     | Some payload => add_prescription env (Order.id db_order) payload
     | None => ret tt
     end ;;;
     db_commit env ;;;
     refresh_order (Order.id db_order))
    (λ e, db_rollback ;;;
          raise_http fastapi_status "HTTP_400_BAD_REQUEST" (Str e)).

(** [update_order_status(order_id, status: str, db)]: inside this handler the
    name [status] is the parameter. *)
Definition update_order_status (env : Env) (order_id : Z) (status : string) : M string :=
  let valid_statuses := ["pending"; "completed"; "cancelled"] in
  (if bool_decide (status ∈ valid_statuses) then ret tt
   else raise_http (PyStr status) "HTTP_400_BAD_REQUEST"
          (Text ("Invalid status. Must be one of: " +:+ join ", " valid_statuses))) ;;;
  order <- query_order order_id ;;
  match order with
  | None => raise_http (PyStr status) "HTTP_404_NOT_FOUND" (Text "Order not found")
  | Some _ =>
      modify_pending (with_orders
        (alter (λ o, Order.set_updated_at (utcnow env) (Order.set_status status o)) order_id)) ;;;
      try_except
        (db_commit env ;;; refresh_order order_id ;;; ret tt)
        (λ e, db_rollback ;;;
              raise_http (PyStr status) "HTTP_400_BAD_REQUEST" (Str e)) ;;;
      ret "Order status updated successfully"
  end.

(** ** routers/inventory.py *)

Definition update_product (env : Env) (product_id : Z)
    (product_update : ProductCreate.t) : M Product.t :=
  db_product <- query_product product_id ;;
  match db_product with
  | None => raise_http fastapi_status "HTTP_404_NOT_FOUND" (Text "Product not found")
  | Some db_product =>
      (if negb (String.eqb (ProductCreate.name product_update) (Product.name db_product)) then
         existing_product <- query_product_by_name (ProductCreate.name product_update) ;;
         match existing_product with
         | Some _ =>
             raise_http fastapi_status "HTTP_400_BAD_REQUEST"
               (Text "Product with this name already exists")
         | None => ret tt
         end
       else ret tt) ;;;
      modify_pending (with_products (alter (λ p,
        Product.mk (Product.id p)
          (ProductCreate.name product_update)
          (ProductCreate.description product_update)
          (ProductCreate.price product_update)
          (ProductCreate.stock product_update)
          (Product.created_at p)
          (utcnow env)) product_id)) ;;;
      try_except
        (db_commit env ;;; p <- refresh_product product_id ;; ret p)
        (λ e, db_rollback ;;;
              raise_http fastapi_status "HTTP_400_BAD_REQUEST" (Str e))
  end.

(** What [update_stock] returns:
    [{"message": ..., "new_stock": db_product.stock}]. *)
Record StockUpdated : Type := mkStockUpdated {
  message : string;
  new_stock : Z
}.

Definition update_stock (env : Env) (product_id : Z) (quantity : Z)
    (operation : string) : M StockUpdated :=
  let valid_operations := ["increase"; "decrease"] in
  (if bool_decide (operation ∈ valid_operations) then ret tt
   else raise_http fastapi_status "HTTP_400_BAD_REQUEST"
          (Text ("Invalid operation. Must be one of: " +:+ join ", " valid_operations))) ;;;
  db_product <- query_product product_id ;;
  match db_product with
  | None => raise_http fastapi_status "HTTP_404_NOT_FOUND" (Text "Product not found")
  | Some db_product =>
      (if String.eqb operation "decrease" && (Product.stock db_product <? quantity) then
         raise_http fastapi_status "HTTP_400_BAD_REQUEST" (Text "Insufficient stock")
       else ret tt) ;;;
      (if String.eqb operation "increase" then
         modify_pending (with_products
           (alter (Product.set_stock (Product.stock db_product + quantity)) product_id))
       else
         modify_pending (with_products
           (alter (Product.set_stock (Product.stock db_product - quantity)) product_id))) ;;;
      modify_pending (with_products (alter (Product.set_updated_at (utcnow env)) product_id)) ;;;
      p <- try_except
        (db_commit env ;;; refresh_product product_id)
        (λ e, db_rollback ;;;
              raise_http fastapi_status "HTTP_400_BAD_REQUEST" (Str e)) ;;
      ret (mkStockUpdated "Stock updated successfully" (Product.stock p))
  end.

(** ** routers/lab_orders.py *)

(** [update_lab_order_status(lab_order_id, status: str, db)]: here too the
    name [status] is the parameter. *)
Definition update_lab_order_status (env : Env) (lab_order_id : Z) (status : string) : M string :=
  let valid_statuses := ["pending"; "in-progress"; "completed"; "cancelled"] in
  (if bool_decide (status ∈ valid_statuses) then ret tt
   else raise_http (PyStr status) "HTTP_400_BAD_REQUEST"
          (Text ("Invalid status. Must be one of: " +:+ join ", " valid_statuses))) ;;;
  lab_order <- query_lab_order lab_order_id ;;
  match lab_order with
  | None => raise_http (PyStr status) "HTTP_404_NOT_FOUND" (Text "Lab order not found")
  | Some _ =>
      modify_pending (with_lab_orders
        (alter (λ o, LabOrder.set_updated_at (utcnow env) (LabOrder.set_status status o))
               lab_order_id)) ;;;
      try_except
        (db_commit env ;;; refresh_lab_order lab_order_id ;;; ret tt)
        (λ e, db_rollback ;;;
              raise_http (PyStr status) "HTTP_400_BAD_REQUEST" (Str e)) ;;;
      ret "Lab order status updated successfully"
  end.

(** ** The other handlers of routers/pos.py *)

(** [db.add(db_product)] for the [Product] built from [product.dict()]: the
    row gets the next key and the column defaults of [created_at] and
    [updated_at].  The key is returned. *)
Definition insert_product (env : Env) (product : ProductCreate.t) : M Z :=
  d <- get_pending ;;
  let pid := next_id (products d) in
  modify_pending (with_products (insert pid
    (Product.mk pid (ProductCreate.name product) (ProductCreate.description product)
       (ProductCreate.price product) (ProductCreate.stock product)
       (utcnow env) (utcnow env)))) ;;;
  ret pid.

Definition get_product (product_id : Z) : M Product.t :=
  product <- query_product product_id ;;
  match product with
  | None => raise_http fastapi_status "HTTP_404_NOT_FOUND" (Text "Product not found")
  | Some product => ret product
  end.

Definition create_product (env : Env) (product : ProductCreate.t) : M Product.t :=
  db_product <- insert_product env product ;;
  try_except
    (db_commit env ;;; refresh_product db_product)
    (λ e, db_rollback ;;;
          raise_http fastapi_status "HTTP_400_BAD_REQUEST" (Str e)).

Definition get_order (order_id : Z) : M Order.t :=
  order <- query_order order_id ;;
  match order with
  | None => raise_http fastapi_status "HTTP_404_NOT_FOUND" (Text "Order not found")
  | Some order => ret order
  end.

(** ** The other handlers of routers/inventory.py *)

(** [threshold: int = 10]: a query parameter that is left out takes its
    default. *)
Definition default_threshold : Z := 10.

(** [db.query(Product).filter(Product.stock <= threshold).all()].  The
    query has no ORDER BY: the order of the rows is the database's, and the
    order of the list here (that of [map_to_list]) stands for it without
    being it; only the rows of the list are meant. *)
Definition get_low_stock_products (threshold : option Z) : M (list Product.t) :=
  d <- get_pending ;;
  ret (filter (λ p, Product.stock p ≤ default default_threshold threshold)
              (snd <$> map_to_list (products d))).

Definition add_product (env : Env) (product : ProductCreate.t) : M Product.t :=
  existing_product <- query_product_by_name (ProductCreate.name product) ;;
  match existing_product with
  | Some _ =>
      raise_http fastapi_status "HTTP_400_BAD_REQUEST"
        (Text "Product with this name already exists")
  | None =>
      db_product <- insert_product env product ;;
      try_except
        (db_commit env ;;; refresh_product db_product)
        (λ e, db_rollback ;;;
              raise_http fastapi_status "HTTP_400_BAD_REQUEST" (Str e))
  end.

Definition delete_product (env : Env) (product_id : Z) : M string :=
  db_product <- query_product product_id ;;
  match db_product with
  | None => raise_http fastapi_status "HTTP_404_NOT_FOUND" (Text "Product not found")
  | Some _ =>
      try_except
        (modify_pending (with_products (delete product_id)) ;;; db_commit env)
        (λ e, db_rollback ;;;
              raise_http fastapi_status "HTTP_400_BAD_REQUEST" (Str e)) ;;;
      ret "Product deleted successfully"
  end.

(** ** The other handlers of routers/lab_orders.py *)

Module LabOrderBase.
Record t : Type := mk {
  prescription_id : Z;
  status : string;
  notes : option string
}.
End LabOrderBase.

Definition LabOrder_set_notes (v : option string) (o : LabOrder.t) : LabOrder.t :=
  LabOrder.mk (LabOrder.id o) (LabOrder.prescription_id o) (LabOrder.status o) v
    (LabOrder.created_at o) (LabOrder.updated_at o).

Definition Prescription_set_fields (v : PrescriptionBase.t) (r : Prescription.t) : Prescription.t :=
  Prescription.mk (Prescription.id r) (Prescription.order_id r) v
    (Prescription.created_at r) (Prescription.updated_at r).

Definition Prescription_set_updated_at (v : Z) (r : Prescription.t) : Prescription.t :=
  Prescription.mk (Prescription.id r) (Prescription.order_id r) (Prescription.fields r)
    (Prescription.created_at r) v.

(** [db.query(Prescription).filter(Prescription.id == rid).first()] *)
Definition query_prescription (rid : Z) : M (option Prescription.t) :=
  d <- get_pending ;; ret (prescriptions d !! rid).

Definition refresh_prescription (rid : Z) : M Prescription.t :=
  d <- get_pending ;;
  match prescriptions d !! rid with
  | Some r => ret r
  | None => raise (SQLAlchemyError "Could not refresh instance")
  end.

(** [db.add(db_lab_order)] for the [LabOrder] built from [lab_order.dict()],
    the fields as they come. *)
Definition insert_lab_order (env : Env) (lab_order : LabOrderBase.t) : M Z :=
  d <- get_pending ;;
  let lid := next_id (lab_orders d) in
  modify_pending (with_lab_orders (insert lid
    (LabOrder.mk lid (LabOrderBase.prescription_id lab_order) (LabOrderBase.status lab_order)
       (LabOrderBase.notes lab_order) (utcnow env) (utcnow env)))) ;;;
  ret lid.

Definition create_lab_order (env : Env) (lab_order : LabOrderBase.t) : M LabOrder.t :=
  prescription <- query_prescription (LabOrderBase.prescription_id lab_order) ;;
  match prescription with
  | None => raise_http fastapi_status "HTTP_404_NOT_FOUND" (Text "Prescription not found")
  | Some _ =>
      db_lab_order <- insert_lab_order env lab_order ;;
      try_except
        (db_commit env ;;; refresh_lab_order db_lab_order)
        (λ e, db_rollback ;;;
              raise_http fastapi_status "HTTP_400_BAD_REQUEST" (Str e))
  end.

Definition get_lab_order (lab_order_id : Z) : M LabOrder.t :=
  lab_order <- query_lab_order lab_order_id ;;
  match lab_order with
  | None => raise_http fastapi_status "HTTP_404_NOT_FOUND" (Text "Lab order not found")
  | Some lab_order => ret lab_order
  end.

(** [update_lab_order_notes(lab_order_id, notes: str, db)]: no parameter of
    this handler is named [status]. *)
Definition update_lab_order_notes (env : Env) (lab_order_id : Z) (notes : string) : M string :=
  lab_order <- query_lab_order lab_order_id ;;
  match lab_order with
  | None => raise_http fastapi_status "HTTP_404_NOT_FOUND" (Text "Lab order not found")
  | Some _ =>
      modify_pending (with_lab_orders
        (alter (λ o, LabOrder.set_updated_at (utcnow env) (LabOrder_set_notes (Some notes) o))
               lab_order_id)) ;;;
      try_except
        (db_commit env ;;; refresh_lab_order lab_order_id ;;; ret tt)
        (λ e, db_rollback ;;;
              raise_http fastapi_status "HTTP_400_BAD_REQUEST" (Str e)) ;;;
      ret "Lab order notes updated successfully"
  end.

Definition get_prescription (prescription_id : Z) : M Prescription.t :=
  prescription <- query_prescription prescription_id ;;
  match prescription with
  | None => raise_http fastapi_status "HTTP_404_NOT_FOUND" (Text "Prescription not found")
  | Some prescription => ret prescription
  end.

Definition update_prescription (env : Env) (prescription_id : Z)
    (prescription_update : PrescriptionBase.t) : M string :=
  prescription <- query_prescription prescription_id ;;
  match prescription with
  | None => raise_http fastapi_status "HTTP_404_NOT_FOUND" (Text "Prescription not found")
  | Some _ =>
      modify_pending (with_prescriptions
        (alter (λ r, Prescription_set_updated_at (utcnow env)
                       (Prescription_set_fields prescription_update r))
               prescription_id)) ;;;
      try_except
        (db_commit env ;;; refresh_prescription prescription_id ;;; ret tt)
        (λ e, db_rollback ;;;
              raise_http fastapi_status "HTTP_400_BAD_REQUEST" (Str e)) ;;;
      ret "Prescription updated successfully"
  end.

(** ** Notions the properties are stated with *)

(** The quantity the lines of a request ask of product [pid], all together. *)
Fixpoint requested (pid : Z) (items : list OrderItemBase.t) : Z :=
  match items with
  | [] => 0
  | item :: rest =>
      (if OrderItemBase.product_id item =? pid then OrderItemBase.quantity item else 0)
      + requested pid rest
  end.

(** A line is in stock when its product exists and its quantity is at most
    the product's stock less what the earlier lines of the request ask of the
    same product. *)
Definition line_in_stock (prods : gmap Z Product.t)
    (earlier : list OrderItemBase.t) (item : OrderItemBase.t) : Prop :=
  ∃ p, prods !! OrderItemBase.product_id item = Some p ∧
       OrderItemBase.quantity item
         ≤ Product.stock p - requested (OrderItemBase.product_id item) earlier.

Definition all_in_stock (prods : gmap Z Product.t) (items : list OrderItemBase.t) : Prop :=
  ∀ earlier item later, items = earlier ++ item :: later → line_in_stock prods earlier item.

(** The requested quantities are in the range of a float. *)
Definition quantities_convert (items : list OrderItemBase.t) : Prop :=
  ∀ item, item ∈ items → ∃ f, float_of_int (OrderItemBase.quantity item) = inr f.

(** The sum over the lines of (product price × quantity), added up from
    [total] in the order of the lines; [None] when a product is missing or a
    product of price and quantity cannot be formed. *)
Definition price_times_quantity (prods : gmap Z Product.t) (item : OrderItemBase.t) : option float :=
  match prods !! OrderItemBase.product_id item with
  | Some p =>
      match float_mul_int (Product.price p) (OrderItemBase.quantity item) with
      | inr a => Some a
      | inl _ => None
      end
  | None => None
  end.

Fixpoint sum_price_times_quantity (prods : gmap Z Product.t)
    (items : list OrderItemBase.t) (total : float) : option float :=
  match items with
  | [] => Some total
  | item :: rest =>
      match price_times_quantity prods item with
      | Some a => sum_price_times_quantity prods rest (PrimFloat.add total a)
      | None => None
      end
  end.

(** No product has a negative stock. *)
Definition stock_nonneg (db : Database) : Prop :=
  ∀ pid p, products db !! pid = Some p → 0 ≤ Product.stock p.

(** The exposed operations that write [Product.stock], and a run of them,
    each request with the environment it meets. *)
Inductive operation : Type :=
  | CreateOrder (order : OrderCreate.t)
  | UpdateStock (product_id quantity : Z) (operation_name : string)
  | UpdateProduct (product_id : Z) (product_update : ProductCreate.t).

Definition perform (env : Env) (op : operation) (db : Database) : Database :=
  match op with
  | CreateOrder order => snd (run (create_order env order) db)
  | UpdateStock pid q o => snd (run (update_stock env pid q o) db)
  | UpdateProduct pid u => snd (run (update_product env pid u) db)
  end.

Fixpoint perform_all (reqs : list (Env * operation)) (db : Database) : Database :=
  match reqs with
  | [] => db
  | (env, op) :: rest => perform_all rest (perform env op db)
  end.

(** The requests whose own numbers are not negative where a negative number
    would be stored or added to the stock as it is: the quantity of an
    "increase", the stock of a product update. *)
Definition sane (op : operation) : Prop :=
  match op with
  | CreateOrder _ => True
  | UpdateStock _ q o => o = "increase" → 0 ≤ q
  | UpdateProduct _ u => 0 ≤ ProductCreate.stock u
  end.

(** The state machine the specification gives for [Order.status], in its
    words: pending → completed, pending → cancelled, both terminal. *)
Inductive spec_transition : string → string → Prop :=
  | pending_completed : spec_transition "pending" "completed"
  | pending_cancelled : spec_transition "pending" "cancelled".

Definition Order_statuses : list string := ["pending"; "completed"; "cancelled"].

(** The session after a turn of the loop of [create_order] that took the
    line [item] from the stock of the loaded product [p]. *)
Definition after_line (env : Env) (item : OrderItemBase.t) (p : Product.t) (s : Session) : Session :=
  mkSession (committed s)
    (with_products
       (alter (write_stock env (Product.stock p - OrderItemBase.quantity item))
              (OrderItemBase.product_id item))
       (pending s)).

(** The order [create_order] adds after a loop that ended with [acc] on the
    working copy [d], and the working copy with the order, its association
    rows and the prescription of the request. *)
Definition new_order (env : Env) (acc : float * list Z) (d : Database) : Order.t :=
  Order.mk (next_id (orders d)) None (fst acc) "pending" (utcnow env) (utcnow env).

Definition with_new_order (env : Env) (order : OrderCreate.t) (acc : float * list Z)
    (d : Database) : Database :=
  let oid := next_id (orders d) in
  let d1 :=
    with_order_items (λ rows, rows ++ map (λ pid, order_items.mk oid pid None None) (snd acc))
      (with_orders (insert oid (new_order env acc d)) d) in
  match OrderCreate.prescription order with
  | Some payload =>
      with_prescriptions
        (insert (next_id (prescriptions d1))
           (Prescription.mk (next_id (prescriptions d1)) oid payload (utcnow env) (utcnow env)))
        d1
  | None => d1
  end.

(** The database after [update_stock] has set the stock of product [pid] to
    [v], and after [update_product] has written the payload [u] over it. *)
Definition stock_written (env : Env) (pid v : Z) (db : Database) : Database :=
  with_products
    (λ m, alter (Product.set_updated_at (utcnow env)) pid (alter (Product.set_stock v) pid m))
    db.

Definition product_written (env : Env) (pid : Z) (u : ProductCreate.t) (db : Database) : Database :=
  with_products
    (alter (λ p, Product.mk (Product.id p) (ProductCreate.name u) (ProductCreate.description u)
                   (ProductCreate.price u) (ProductCreate.stock u) (Product.created_at p)
                   (utcnow env)) pid)
    db.

(** The database after a status update has set the status of order [oid],
    or of lab order [lid], to [v]. *)
Definition order_status_written (env : Env) (oid : Z) (v : string) (db : Database) : Database :=
  with_orders (alter (λ o, Order.set_updated_at (utcnow env) (Order.set_status v o)) oid) db.

Definition lab_order_status_written (env : Env) (lid : Z) (v : string) (db : Database) : Database :=
  with_lab_orders
    (alter (λ o, LabOrder.set_updated_at (utcnow env) (LabOrder.set_status v o)) lid) db.

(** ** Sample data *)

Definition product_A : Product.t := Product.mk 1 "A" None 10%float 5 100 100.
Definition shop : Database := mkDatabase {[ 1 := product_A ]} ∅ [] ∅ ∅.
Definition at_200 : Env := mkEnv 200 None.
Definition line (pid q : Z) : OrderItemBase.t := OrderItemBase.mk pid q.
Definition order_of (lines : list OrderItemBase.t) : OrderCreate.t := OrderCreate.mk lines None.

Definition completed_order : Order.t := Order.mk 1 None 30%float "completed" 200 200.
Definition shop_with_completed_order : Database :=
  mkDatabase {[ 1 := product_A ]} {[ 1 := completed_order ]} [order_items.mk 1 1 None None] ∅ ∅.

Definition lab_order_1 : LabOrder.t := LabOrder.mk 1 1 "pending" None 100 100.
Definition lab : Database := mkDatabase ∅ ∅ [] ∅ {[ 1 := lab_order_1 ]}.

(** ** Notions for the other handlers *)

(** No two products have the same name. *)
Definition names_unique (db : Database) : Prop :=
  ∀ i j p q,
    products db !! i = Some p → products db !! j = Some q →
    Product.name p = Product.name q → i = j.

(** Some product has the name [n]. *)
Definition name_in_use (db : Database) (n : string) : Prop :=
  ∃ pid p, products db !! pid = Some p ∧ Product.name p = n.

Definition LabOrder_statuses : list string :=
  ["pending"; "in-progress"; "completed"; "cancelled"].

(** Every lab order has one of the four statuses. *)
Definition lab_statuses_valid (db : Database) : Prop :=
  ∀ lid o, lab_orders db !! lid = Some o → LabOrder.status o ∈ LabOrder_statuses.

(** The product [create_product] and [add_product] insert, and the database
    with it. *)
Definition new_product (env : Env) (product : ProductCreate.t) (db : Database) : Product.t :=
  Product.mk (next_id (products db)) (ProductCreate.name product)
    (ProductCreate.description product) (ProductCreate.price product)
    (ProductCreate.stock product) (utcnow env) (utcnow env).

Definition product_inserted (env : Env) (product : ProductCreate.t) (db : Database) : Database :=
  with_products (insert (next_id (products db)) (new_product env product db)) db.

(** The lab order [create_lab_order] inserts, and the database with it. *)
Definition new_lab_order (env : Env) (lab_order : LabOrderBase.t) (db : Database) : LabOrder.t :=
  LabOrder.mk (next_id (lab_orders db)) (LabOrderBase.prescription_id lab_order)
    (LabOrderBase.status lab_order) (LabOrderBase.notes lab_order) (utcnow env) (utcnow env).

Definition lab_order_inserted (env : Env) (lab_order : LabOrderBase.t) (db : Database) : Database :=
  with_lab_orders (insert (next_id (lab_orders db)) (new_lab_order env lab_order db)) db.

(** The database after the notes of lab order [lid] have been set, and after
    the fields of prescription [rid] have been overwritten. *)
Definition lab_order_notes_written (env : Env) (lid : Z) (v : string) (db : Database) : Database :=
  with_lab_orders
    (alter (λ o, LabOrder.set_updated_at (utcnow env) (LabOrder_set_notes (Some v) o)) lid) db.

Definition prescription_written (env : Env) (rid : Z) (v : PrescriptionBase.t)
    (db : Database) : Database :=
  with_prescriptions
    (alter (λ r, Prescription_set_updated_at (utcnow env) (Prescription_set_fields v r)) rid) db.

(** Two rows of a product that differ at most in [stock] and [updated_at]. *)
Definition same_but_stock (p p' : Product.t) : Prop :=
  Product.id p' = Product.id p ∧ Product.name p' = Product.name p ∧
  Product.description p' = Product.description p ∧ Product.price p' = Product.price p ∧
  Product.created_at p' = Product.created_at p.

(** More sample data *)

Definition at_300 : Env := mkEnv 300 None.
Definition product_B : ProductCreate.t := ProductCreate.mk "B" None 20%float 0.
Definition single_vision : PrescriptionBase.t :=
  PrescriptionBase.mk "-1.25" "-0.50" "180" None "-1.00" "-0.75" "175" None
    "polycarbonate" "anti-reflective" false None.
Definition progressive : PrescriptionBase.t :=
  PrescriptionBase.mk "+0.50" "-0.25" "90" (Some "+2.00") "+0.75" "-0.25" "85" (Some "+2.00")
    "high-index" "blue-light" true (Some "first pair").
Definition prescription_1 : Prescription.t := Prescription.mk 1 1 single_vision 200 200.
Definition clinic : Database :=
  mkDatabase {[ 1 := product_A ]} {[ 1 := completed_order ]} [order_items.mk 1 1 None None]
    {[ 1 := prescription_1 ]} {[ 1 := lab_order_1 ]}.

(** * Properties *)

(** ** The monad and the session *)

Ltac unfold_M :=
  unfold raise_http, assign_stock, query_product, query_product_by_name, query_order,
    query_lab_order, refresh_product, refresh_order, refresh_lab_order, add_order,
    add_prescription, db_commit, db_rollback, modify_pending, get_pending,
    try_except, bind, ret, raise, lift in *.

(** ** One turn of the loop of [create_order] *)

Lemma process_item_missing env item acc s :
  products (pending s) !! OrderItemBase.product_id item = None →
  process_item env item acc s =
    (inl (HTTPException 404
            (Text ("Product with id " +:+ pretty (OrderItemBase.product_id item) +:+ " not found"))),
     s).
Proof.
  intros H. unfold process_item. destruct acc as [total refs].
  unfold_M. rewrite H. reflexivity.
Qed.

Lemma process_item_short env item acc s p :
  products (pending s) !! OrderItemBase.product_id item = Some p →
  Product.stock p < OrderItemBase.quantity item →
  process_item env item acc s =
    (inl (HTTPException 400 (Text ("Insufficient stock for product " +:+ Product.name p))), s).
Proof.
  intros H Hlt. unfold process_item. destruct acc as [total refs].
  unfold_M. rewrite H. apply Z.ltb_lt in Hlt. rewrite Hlt. reflexivity.
Qed.

Lemma process_item_overflow env item acc s p e :
  products (pending s) !! OrderItemBase.product_id item = Some p →
  OrderItemBase.quantity item ≤ Product.stock p →
  float_mul_int (Product.price p) (OrderItemBase.quantity item) = inl e →
  process_item env item acc s = (inl e, after_line env item p s).
Proof.
  intros H Hle Hmul. unfold process_item. destruct acc as [total refs].
  unfold_M. rewrite H. apply Z.ltb_ge in Hle. rewrite Hle, Hmul. reflexivity.
Qed.

Lemma process_item_taken env item acc s p a :
  products (pending s) !! OrderItemBase.product_id item = Some p →
  OrderItemBase.quantity item ≤ Product.stock p →
  float_mul_int (Product.price p) (OrderItemBase.quantity item) = inr a →
  process_item env item acc s =
    (inr (PrimFloat.add (fst acc) a, snd acc ++ [OrderItemBase.product_id item]),
     after_line env item p s).
Proof.
  intros H Hle Hmul. unfold process_item. destruct acc as [total refs].
  unfold_M. rewrite H. apply Z.ltb_ge in Hle. rewrite Hle, Hmul. reflexivity.
Qed.

(** The four ways a turn of the loop can go. *)
Lemma process_item_cases env item acc s :
  (products (pending s) !! OrderItemBase.product_id item = None ∧
   ∃ d, process_item env item acc s = (inl (HTTPException 404 d), s)) ∨
  (∃ p, products (pending s) !! OrderItemBase.product_id item = Some p ∧
        Product.stock p < OrderItemBase.quantity item ∧
        ∃ d, process_item env item acc s = (inl (HTTPException 400 d), s)) ∨
  (∃ p e, products (pending s) !! OrderItemBase.product_id item = Some p ∧
          OrderItemBase.quantity item ≤ Product.stock p ∧
          float_mul_int (Product.price p) (OrderItemBase.quantity item) = inl e ∧
          process_item env item acc s = (inl e, after_line env item p s)) ∨
  (∃ p a, products (pending s) !! OrderItemBase.product_id item = Some p ∧
          OrderItemBase.quantity item ≤ Product.stock p ∧
          float_mul_int (Product.price p) (OrderItemBase.quantity item) = inr a ∧
          process_item env item acc s =
            (inr (PrimFloat.add (fst acc) a, snd acc ++ [OrderItemBase.product_id item]),
             after_line env item p s)).
Proof.
  destruct (products (pending s) !! OrderItemBase.product_id item) as [p|] eqn:Hp.
  - right. destruct (Z.lt_ge_cases (Product.stock p) (OrderItemBase.quantity item)) as [Hlt|Hge].
    + left. exists p. split; [done|]. split; [done|].
      eexists. by apply process_item_short.
    + right. destruct (float_mul_int (Product.price p) (OrderItemBase.quantity item)) as [e|a] eqn:Hm.
      * left. exists p, e. eauto using process_item_overflow.
      * right. exists p, a. eauto using process_item_taken.
  - left. split; [done|]. eexists. by apply process_item_missing.
Qed.

(** ** The loop of [create_order] *)

Lemma session_eta s :
  s = mkSession (committed s) (with_products (λ _, products (pending s)) (pending s)).
Proof. destruct s as [c [? ? ? ? ?]]. reflexivity. Qed.

(** The loop writes nothing but the products of the working copy. *)
Lemma process_items_frame env items : ∀ acc s r s',
  process_items env items acc s = (r, s') →
  ∃ prods, s' = mkSession (committed s) (with_products (λ _, prods) (pending s)).
Proof.
  induction items as [|item rest IH]; intros acc s r s' H; simpl in H.
  - unfold ret in H. injection H as _ <-. eexists. apply session_eta.
  - unfold bind in H.
    destruct (process_item_cases env item acc s)
      as [(_ & d & E)|[(p & _ & _ & d & E)|[(p & e & _ & _ & _ & E)|(p & a & _ & _ & _ & E)]]];
      rewrite E in H.
    + injection H as _ <-. eexists. apply session_eta.
    + injection H as _ <-. eexists. apply session_eta.
    + injection H as _ <-. eexists. reflexivity.
    + apply IH in H as [prods ->]. eexists. reflexivity.
Qed.

Lemma process_items_committed env items acc s r s' :
  process_items env items acc s = (r, s') → committed s' = committed s.
Proof. intros H. apply process_items_frame in H as [prods ->]. reflexivity. Qed.

(** ** [create_order] after its loop *)

Lemma create_order_loop_raises env order s e s1 :
  process_items env (OrderCreate.items order) (0%float, []) s = (inl e, s1) →
  create_order env order s =
    (inl (HTTPException 400 (Str e)), mkSession (committed s1) (committed s1)).
Proof.
  intros H. unfold create_order, try_except, bind at 1. rewrite H. reflexivity.
Qed.

Lemma create_order_commit_refused env order s acc s1 msg :
  process_items env (OrderCreate.items order) (0%float, []) s = (inr acc, s1) →
  commit_error env = Some msg →
  create_order env order s =
    (inl (HTTPException 400 (Str (SQLAlchemyError msg))),
     mkSession (committed s1) (committed s1)).
Proof.
  intros H Hc. unfold create_order, try_except, bind at 1. rewrite H.
  unfold_M. simpl. destruct (OrderCreate.prescription order); simpl; rewrite Hc; reflexivity.
Qed.

Lemma create_order_commits env order s acc s1 :
  process_items env (OrderCreate.items order) (0%float, []) s = (inr acc, s1) →
  commit_error env = None →
  create_order env order s =
    (inr (new_order env acc (pending s1)),
     mkSession (with_new_order env order acc (pending s1))
               (with_new_order env order acc (pending s1))).
Proof.
  intros H Hc. unfold create_order, try_except, bind at 1. rewrite H.
  unfold_M. unfold with_new_order. simpl.
  destruct (OrderCreate.prescription order); simpl; rewrite Hc; simpl;
    rewrite lookup_insert_eq; reflexivity.
Qed.

(** The three ways [create_order] can go. *)
Lemma create_order_cases env order db :
  (∃ e, run (create_order env order) db = (inl (HTTPException 400 (Str e)), db)) ∨
  (∃ acc prods,
     process_items env (OrderCreate.items order) (0%float, []) (mkSession db db)
       = (inr acc, mkSession db (with_products (λ _, prods) db)) ∧
     commit_error env = None ∧
     run (create_order env order) db =
       (inr (new_order env acc (with_products (λ _, prods) db)),
        with_new_order env order acc (with_products (λ _, prods) db))).
Proof.
  destruct (process_items env (OrderCreate.items order) (0%float, []) (mkSession db db))
    as [[e|acc] s1] eqn:H.
  - left. exists e. unfold run. rewrite (create_order_loop_raises _ _ _ _ _ H).
    apply process_items_committed in H. simpl in *. by rewrite H.
  - destruct (commit_error env) as [msg|] eqn:Hc.
    + left. eexists. unfold run. rewrite (create_order_commit_refused _ _ _ _ _ _ H Hc).
      apply process_items_committed in H. simpl in *. by rewrite H.
    + right. destruct (process_items_frame _ _ _ _ _ _ H) as [prods ->]. simpl in *.
      exists acc, prods. split; [done|]. split; [done|].
      unfold run. rewrite (create_order_commits _ _ _ _ _ H Hc). reflexivity.
Qed.

(** ** Lines in stock *)

Lemma write_stock_stock env v p : Product.stock (write_stock env v p) = v.
Proof.
  unfold write_stock. destruct (Product.stock p =? v) eqn:E; [|reflexivity].
  by apply Z.eqb_eq in E.
Qed.

Lemma write_stock_price env v p : Product.price (write_stock env v p) = Product.price p.
Proof. unfold write_stock. by destruct (Product.stock p =? v). Qed.

Lemma all_in_stock_nil prods : all_in_stock prods [].
Proof. intros earlier item later H. by destruct earlier. Qed.

Lemma all_in_stock_cons env prods item rest p :
  prods !! OrderItemBase.product_id item = Some p →
  all_in_stock prods (item :: rest) ↔
  OrderItemBase.quantity item ≤ Product.stock p ∧
  all_in_stock
    (alter (write_stock env (Product.stock p - OrderItemBase.quantity item))
           (OrderItemBase.product_id item) prods)
    rest.
Proof.
  intros Hp. split.
  - intros H. split.
    + destruct (H [] item rest eq_refl) as (p' & Hp' & Hq). simpl in Hq.
      rewrite Hp in Hp'. injection Hp' as <-. lia.
    + intros earlier item' later ->.
      destruct (H (item :: earlier) item' later eq_refl) as (p' & Hp' & Hq).
      simpl in Hq. unfold line_in_stock. rewrite lookup_alter.
      destruct (decide (OrderItemBase.product_id item = OrderItemBase.product_id item'))
        as [Heq|Hne].
      * rewrite (proj2 (Z.eqb_eq _ _) Heq) in Hq. rewrite <- Heq in Hp'. rewrite Hp in Hp'.
        injection Hp' as <-. rewrite Hp. simpl. eexists. split; [done|].
        rewrite write_stock_stock. rewrite <- Heq in Hq |- *. lia.
      * rewrite (proj2 (Z.eqb_neq _ _) Hne) in Hq. exists p'. split; [done|]. lia.
  - intros [Hq H] earlier item' later Heq. destruct earlier as [|item0 earlier].
    + simpl in Heq. injection Heq as <- <-. exists p. split; [done|]. simpl. lia.
    + simpl in Heq. injection Heq as <- ->.
      destruct (H earlier item' later eq_refl) as (p' & Hp' & Hq').
      rewrite lookup_alter in Hp'. unfold line_in_stock. simpl.
      destruct (decide (OrderItemBase.product_id item = OrderItemBase.product_id item'))
        as [Heq|Hne].
      * rewrite (proj2 (Z.eqb_eq _ _) Heq). rewrite Hp in Hp'. simpl in Hp'.
        injection Hp' as <-. rewrite write_stock_stock in Hq'.
        exists p. rewrite <- Heq. split; [done|]. rewrite <- Heq in Hq'. lia.
      * rewrite (proj2 (Z.eqb_neq _ _) Hne). exists p'. split; [done|]. lia.
Qed.

Lemma quantities_convert_cons item rest :
  quantities_convert (item :: rest) ↔
  (∃ f, float_of_int (OrderItemBase.quantity item) = inr f) ∧ quantities_convert rest.
Proof.
  unfold quantities_convert. split.
  - intros H. split; [apply H; by left|]. intros i Hi. apply H. by right.
  - intros [H1 H2] i Hi. apply elem_of_cons in Hi as [->|Hi]; auto.
Qed.

Lemma float_mul_int_inr x n a :
  float_mul_int x n = inr a ↔ ∃ f, float_of_int n = inr f ∧ a = PrimFloat.mul x f.
Proof.
  unfold float_mul_int. destruct (float_of_int n) as [e|f].
  - split; [done|]. by intros (f & ? & _).
  - split.
    + intros [= <-]. by exists f.
    + intros (f' & [= <-] & ->). done.
Qed.

(** The sum reads the prices only. *)
Lemma sum_price_times_quantity_ext prods1 prods2 items : ∀ total,
  (∀ pid, Product.price <$> prods1 !! pid = Product.price <$> prods2 !! pid) →
  sum_price_times_quantity prods1 items total = sum_price_times_quantity prods2 items total.
Proof.
  induction items as [|item rest IH]; intros total H; simpl; [done|].
  assert (price_times_quantity prods1 item = price_times_quantity prods2 item) as ->.
  { unfold price_times_quantity. specialize (H (OrderItemBase.product_id item)).
    destruct (prods1 !! _), (prods2 !! _); simpl in H; try done. by injection H as ->. }
  destruct (price_times_quantity prods2 item); [|done]. by apply IH.
Qed.

(** What the loop does when every line is in stock. *)
Lemma process_items_in_stock env items : ∀ acc s,
  all_in_stock (products (pending s)) items →
  quantities_convert items →
  ∃ total prods,
    sum_price_times_quantity (products (pending s)) items (fst acc) = Some total ∧
    process_items env items acc s =
      (inr (total, snd acc ++ map OrderItemBase.product_id items),
       mkSession (committed s) (with_products (λ _, prods) (pending s))) ∧
    (∀ pid, Product.stock <$> prods !! pid =
            (λ p, Product.stock p - requested pid items) <$> products (pending s) !! pid) ∧
    (∀ pid, Product.price <$> prods !! pid = Product.price <$> products (pending s) !! pid).
Proof.
  induction items as [|item rest IH]; intros acc s Hin Hconv; simpl.
  - exists (fst acc), (products (pending s)). split; [done|]. split.
    + unfold ret. rewrite app_nil_r. destruct acc. simpl. f_equal. apply session_eta.
    + split; [|done]. intros pid. destruct (products (pending s) !! pid); simpl; [|done].
      f_equal. lia.
  - destruct (Hin [] item rest eq_refl) as (p & Hp & _).
    apply (all_in_stock_cons env _ _ _ _ Hp) in Hin as [Hq Hin].
    apply quantities_convert_cons in Hconv as [[f Hf] Hconv].
    assert (float_mul_int (Product.price p) (OrderItemBase.quantity item)
            = inr (PrimFloat.mul (Product.price p) f)) as Hm.
    { apply float_mul_int_inr. eauto. }
    pose proof (process_item_taken env item acc s p _ Hp Hq Hm) as Hstep.
    set (acc1 := (PrimFloat.add (fst acc) (PrimFloat.mul (Product.price p) f),
                  snd acc ++ [OrderItemBase.product_id item])) in *.
    destruct (IH acc1 (after_line env item p s) Hin Hconv)
      as (total & prods & Hsum & Hrun & Hstock & Hprice).
    simpl in Hsum, Hrun, Hstock, Hprice.
    assert (∀ pid,
      Product.price <$> alter (write_stock env (Product.stock p - OrderItemBase.quantity item))
                          (OrderItemBase.product_id item) (products (pending s)) !! pid
      = Product.price <$> products (pending s) !! pid) as Hsame.
    { intros pid. rewrite lookup_alter. case_decide as Hd; [|done]. subst pid.
      rewrite Hp. simpl. by rewrite write_stock_price. }
    exists total, prods. split; [|split; [|split]].
    + unfold price_times_quantity. rewrite Hp, Hm.
      rewrite <- Hsum. symmetry. by apply sum_price_times_quantity_ext.
    + unfold bind. rewrite Hstep, Hrun. simpl. by rewrite <- app_assoc.
    + intros pid. rewrite Hstock, lookup_alter.
      destruct (decide (OrderItemBase.product_id item = pid)) as [Heq|Hne].
      * subst pid. rewrite Z.eqb_refl, Hp. simpl.
        rewrite write_stock_stock. f_equal. lia.
      * rewrite (proj2 (Z.eqb_neq _ _) Hne).
        destruct (products (pending s) !! pid); simpl; [|done]. f_equal.
    + intros pid. by rewrite Hprice, Hsame.
Qed.

(** And the loop goes through only then. *)
Lemma process_items_through env items : ∀ acc s acc' s',
  process_items env items acc s = (inr acc', s') →
  all_in_stock (products (pending s)) items ∧ quantities_convert items.
Proof.
  induction items as [|item rest IH]; intros acc s acc' s' H; simpl in H.
  - split; [apply all_in_stock_nil|]. intros i Hi. by apply elem_of_nil in Hi.
  - unfold bind in H.
    destruct (process_item_cases env item acc s)
      as [(_ & d & E)|[(p & _ & _ & d & E)|[(p & e & _ & _ & _ & E)|(p & a & Hp & Hq & Hm & E)]]];
      rewrite E in H; try discriminate.
    apply IH in H as [Hin Hconv]. simpl in Hin. split.
    + apply (all_in_stock_cons env _ _ _ _ Hp). done.
    + apply quantities_convert_cons. split; [|done].
      apply float_mul_int_inr in Hm as (f & Hf & _). eauto.
Qed.

(** ** Keys *)

Lemma next_id_above {A : Type} (m : gmap Z A) k :
  is_Some (m !! k) → k < next_id m.
Proof.
  unfold next_id. revert k.
  apply (map_fold_weak_ind (λ r (m : gmap Z A), ∀ k, is_Some (m !! k) → k < 1 + r)).
  - intros k [x Hx]. by rewrite lookup_empty in Hx.
  - intros i x m' r _ IH k Hk. destruct (decide (i = k)) as [->|Hne].
    + lia.
    + rewrite lookup_insert_ne in Hk by done. specialize (IH k Hk). lia.
Qed.

Lemma next_id_fresh {A : Type} (m : gmap Z A) : m !! next_id m = None.
Proof.
  destruct (m !! next_id m) eqn:E; [|done].
  assert (next_id m < next_id m) by (apply next_id_above; eauto). lia.
Qed.

(** ** What [create_order] commits *)

Lemma with_new_order_products env order acc d :
  products (with_new_order env order acc d) = products d.
Proof. unfold with_new_order. by destruct (OrderCreate.prescription order). Qed.

Lemma with_new_order_orders env order acc d :
  orders (with_new_order env order acc d)
  = <[next_id (orders d) := new_order env acc d]> (orders d).
Proof. unfold with_new_order. by destruct (OrderCreate.prescription order). Qed.

Lemma with_new_order_rows env order acc d :
  order_items_rows (with_new_order env order acc d)
  = order_items_rows d
    ++ map (λ pid, order_items.mk (next_id (orders d)) pid None None) (snd acc).
Proof. unfold with_new_order. by destruct (OrderCreate.prescription order). Qed.

(** Every failure of [create_order] reaches the client as a 400 that wraps
    the exception raised inside the [try]. *)
Lemma create_order_error_is_400 env order db e db' :
  run (create_order env order) db = (inl e, db') →
  ∃ inner, e = HTTPException 400 (Str inner).
Proof.
  intros H. destruct (create_order_cases env order db) as [[inner E]|(acc & prods & _ & _ & E)];
    rewrite E in H; [|discriminate].
  injection H as <- _. eauto.
Qed.

(** A request that names a product the database does not have fails. *)
Lemma create_order_missing_product_fails env order db item :
  item ∈ OrderCreate.items order →
  products db !! OrderItemBase.product_id item = None →
  ∃ e, run (create_order env order) db = (inl e, db).
Proof.
  intros Hin Hnone.
  destruct (create_order_cases env order db) as [[inner E]|(acc & prods & Hloop & _ & _)];
    [eauto|].
  apply process_items_through in Hloop as [Hstock _]. simpl in Hstock.
  apply list_elem_of_split in Hin as (earlier & later & Heq).
  destruct (Hstock _ _ _ Heq) as (p & Hp & _). congruence.
Qed.

(** So does a request with a line that asks for more than is left of its
    product when its turn comes. *)
Lemma create_order_short_stock_fails env order db earlier item later p :
  OrderCreate.items order = earlier ++ item :: later →
  products db !! OrderItemBase.product_id item = Some p →
  Product.stock p - requested (OrderItemBase.product_id item) earlier
    < OrderItemBase.quantity item →
  ∃ e, run (create_order env order) db = (inl e, db).
Proof.
  intros Heq Hp Hlt.
  destruct (create_order_cases env order db) as [[inner E]|(acc & prods & Hloop & _ & _)];
    [eauto|].
  apply process_items_through in Hloop as [Hstock _]. simpl in Hstock.
  destruct (Hstock _ _ _ Heq) as (p' & Hp' & Hq). rewrite Hp in Hp'. injection Hp' as <-. lia.
Qed.

(** C1: an order-creation request that fails (a product it names is missing,
    a line asks for more than the stock, or whatever else makes it fail)
    leaves the database exactly as it was: every product keeps its stock, no
    order row is added, and a retry of the same payload meets the state the
    first attempt met. *)
Theorem create_order_failure_changes_nothing env order db e db' :
  run (create_order env order) db = (inl e, db') →
  db' = db ∧
  (∀ pid, Product.stock <$> products db' !! pid = Product.stock <$> products db !! pid) ∧
  orders db' = orders db ∧
  (∀ env', run (create_order env' order) db' = run (create_order env' order) db).
Proof.
  intros H.
  assert (db' = db) as ->.
  { destruct (create_order_cases env order db) as [[inner E]|(acc & prods & _ & _ & E)];
      rewrite E in H; [|discriminate]. by injection H as _ <-. }
  done.
Qed.

Lemma create_order_failure_changes_nothing_witness :
  run (create_order at_200 (order_of [line 1 7])) shop
    = (inl (HTTPException 400
              (Str (HTTPException 400 (Text "Insufficient stock for product A")))), shop)
  ∧ Product.stock <$> products shop !! 1 = Some 5
  ∧ orders shop = ∅.
Proof.
  assert (run (create_order at_200 (order_of [line 1 7])) shop
    = (inl (HTTPException 400
              (Str (HTTPException 400 (Text "Insufficient stock for product A")))), shop))
    as H by (vm_compute; reflexivity).
  split; [exact H|].
  destruct (create_order_failure_changes_nothing _ _ _ _ _ H) as (_ & Hstock & Horders & _).
  split; [apply (Hstock 1)|apply Horders].
Defined.

Lemma process_items_app env l1 l2 : ∀ acc s,
  process_items env (l1 ++ l2) acc s
  = bind (process_items env l1 acc) (process_items env l2) s.
Proof.
  induction l1 as [|item rest IH]; intros acc s; simpl; [done|].
  unfold bind. destruct (process_item env item acc s) as [[e|acc'] s1]; [done|].
  rewrite IH. reflexivity.
Qed.

(** When the lines before it go through, the line that names a missing
    product is the one that stops the request, and the 400 wraps the 404
    raised for it. *)
Lemma create_order_first_missing env order db earlier item later :
  OrderCreate.items order = earlier ++ item :: later →
  all_in_stock (products db) earlier →
  quantities_convert earlier →
  products db !! OrderItemBase.product_id item = None →
  run (create_order env order) db
  = (inl (HTTPException 400
            (Str (HTTPException 404
                    (Text ("Product with id " +:+ pretty (OrderItemBase.product_id item)
                           +:+ " not found"))))),
     db).
Proof.
  intros Heq Hstock Hconv Hnone.
  destruct (process_items_in_stock env earlier (0%float, []) (mkSession db db) Hstock Hconv)
    as (total & prods & _ & Hrun & Hst & _).
  simpl in Hrun, Hst.
  assert (prods !! OrderItemBase.product_id item = None) as Hnone'.
  { specialize (Hst (OrderItemBase.product_id item)). rewrite Hnone in Hst.
    by destruct (prods !! OrderItemBase.product_id item). }
  assert (process_items env (OrderCreate.items order) (0%float, []) (mkSession db db)
          = (inl (HTTPException 404
                    (Text ("Product with id " +:+ pretty (OrderItemBase.product_id item)
                           +:+ " not found"))),
             mkSession db (with_products (λ _, prods) db))) as Hloop.
  { rewrite Heq, process_items_app. unfold bind at 1. rewrite Hrun.
    cbn [process_items]. unfold bind. rewrite process_item_missing by done. reflexivity. }
  unfold run. rewrite (create_order_loop_raises _ _ _ _ _ Hloop). reflexivity.
Qed.

(** C2: a request that names a product the database does not have is never
    answered with a 404.  The 404 "Product with id ... not found" is raised
    inside the [try] of the handler, whose [except Exception] catches it,
    rolls back, and raises a 400 with [str] of the caught exception as its
    detail: the client gets status 400, and nothing is written. *)
Theorem create_order_missing_product_is_400 env order db item :
  item ∈ OrderCreate.items order →
  products db !! OrderItemBase.product_id item = None →
  ∃ inner,
    run (create_order env order) db = (inl (HTTPException 400 (Str inner)), db) ∧
    response_status_code (error_response (HTTPException 400 (Str inner))) = 400.
Proof.
  intros Hin Hnone.
  destruct (create_order_missing_product_fails env order db item Hin Hnone) as [e He].
  destruct (create_order_error_is_400 _ _ _ _ _ He) as [inner ->].
  exists inner. split; [exact He|reflexivity].
Qed.

Lemma create_order_missing_product_is_400_witness :
  run (create_order at_200 (order_of [line 999 3])) shop
    = (inl (HTTPException 400
              (Str (HTTPException 404 (Text "Product with id 999 not found")))),
       shop) ∧
  ∃ inner,
    run (create_order at_200 (order_of [line 999 3])) shop
      = (inl (HTTPException 400 (Str inner)), shop) ∧
    response_status_code (error_response (HTTPException 400 (Str inner))) = 400.
Proof.
  split; [vm_compute; reflexivity|].
  apply (create_order_missing_product_is_400 at_200 (order_of [line 999 3]) shop (line 999 3));
    [apply list_elem_of_here|reflexivity].
Defined.

(** C3: the line items [create_order] persists do not record the quantity
    or the price.  For every request that succeeds, the rows added to
    [order_items] are one per line, made of the key of the new order and the
    key of the product, with the columns [quantity] and [price_at_time] that
    the table declares left NULL; the total of the order is computed from
    the request and is kept on the order alone. *)
Theorem create_order_line_items_lack_snapshot env order db db_order db' :
  run (create_order env order) db = (inr db_order, db') →
  order_items_rows db'
  = order_items_rows db
    ++ map (λ item, order_items.mk (Order.id db_order) (OrderItemBase.product_id item) None None)
           (OrderCreate.items order).
Proof.
  intros H.
  destruct (create_order_cases env order db) as [[inner E]|(acc & prods & Hloop & _ & E)];
    rewrite E in H; [discriminate|].
  injection H as <- <-. rewrite with_new_order_rows. simpl. f_equal.
  pose proof (process_items_through _ _ _ _ _ _ Hloop) as [Hstock Hconv].
  destruct (process_items_in_stock env _ (0%float, []) _ Hstock Hconv)
    as (total & prods' & _ & Hrun & _).
  rewrite Hrun in Hloop. injection Hloop as <- _. simpl. by rewrite map_map.
Qed.

Lemma create_order_line_items_lack_snapshot_witness :
  ∃ db_order db',
    run (create_order at_200 (order_of [line 1 3])) shop = (inr db_order, db') ∧
    Order.total_amount db_order = 30%float ∧
    order_items_rows db' = [order_items.mk 1 1 None None].
Proof.
  eexists (Order.mk 1 None 30%float "pending" 200 200), _.
  assert (run (create_order at_200 (order_of [line 1 3])) shop
          = (inr (Order.mk 1 None 30%float "pending" 200 200),
             snd (run (create_order at_200 (order_of [line 1 3])) shop))) as H
    by (vm_compute; reflexivity).
  split; [exact H|]. split; [reflexivity|].
  apply (create_order_line_items_lack_snapshot _ _ _ _ _ H).
Defined.

(** C4 as stated fails: each of the two lines asks for 3 of product A, which
    has 5 in stock, so each quantity is at most the product's stock; the
    second line finds 2 left and the request is refused. *)
Lemma create_order_same_product_twice_refused :
  (∀ item, item ∈ OrderCreate.items (order_of [line 1 3; line 1 3]) →
     ∃ p, products shop !! OrderItemBase.product_id item = Some p ∧
          OrderItemBase.quantity item ≤ Product.stock p) ∧
  run (create_order at_200 (order_of [line 1 3; line 1 3])) shop
    = (inl (HTTPException 400
              (Str (HTTPException 400 (Text "Insufficient stock for product A")))),
       shop).
Proof.
  split; [|vm_compute; reflexivity].
  intros item Hitem. exists product_A. simpl in Hitem.
  apply elem_of_cons in Hitem as [->|Hitem];
    [|apply elem_of_cons in Hitem as [->|Hitem]; [|by apply elem_of_nil in Hitem]];
    (split; [reflexivity|simpl; lia]).
Qed.

(** For a request that names no product twice, a line is in stock when its
    quantity is at most the stock the product has in the database. *)
Lemma requested_not_named pid items :
  pid ∉ map OrderItemBase.product_id items → requested pid items = 0.
Proof.
  induction items as [|item rest IH]; simpl; intros H; [done|].
  apply not_elem_of_cons in H as [Hne Hrest].
  rewrite (proj2 (Z.eqb_neq _ _)) by congruence. rewrite IH by done. lia.
Qed.

Lemma all_in_stock_distinct prods items :
  NoDup (map OrderItemBase.product_id items) →
  (∀ item, item ∈ items →
     ∃ p, prods !! OrderItemBase.product_id item = Some p ∧
          OrderItemBase.quantity item ≤ Product.stock p) →
  all_in_stock prods items.
Proof.
  intros Hnodup Hall earlier item later ->.
  destruct (Hall item) as (p & Hp & Hq).
  { apply elem_of_app. right. apply list_elem_of_here. }
  exists p. split; [done|].
  rewrite map_app in Hnodup. apply NoDup_app in Hnodup as (_ & Hdisj & _).
  rewrite requested_not_named; [lia|].
  intros Hin. apply (Hdisj _ Hin). simpl. apply list_elem_of_here.
Qed.

(** The two other ways a request whose lines are all in stock can fail: the
    storage layer refuses the commit, or a quantity is beyond the floats
    (here minus 10^400, which is below any stock). *)
Example create_order_commit_refused_example :
  run (create_order (mkEnv 200 (Some "database is locked")) (order_of [line 1 3])) shop
    = (inl (HTTPException 400 (Str (SQLAlchemyError "database is locked"))), shop).
Proof. vm_compute. reflexivity. Qed.

Example create_order_quantity_beyond_floats :
  run (create_order at_200 (order_of [line 1 (- 10 ^ 400)])) shop
    = (inl (HTTPException 400 (Str (OverflowError "int too large to convert to float"))),
       shop).
Proof. vm_compute. reflexivity. Qed.

(** C4, amended: when the commit is not refused, every line's product exists,
    every quantity is at most the product's stock less what the earlier
    lines of the request ask of the same product, and every quantity is in
    the range of a float, the request succeeds: the order returned is the
    order persisted, it is new, its status is "pending", its total is the sum
    over the lines of (product price × quantity), and each product's stock
    has gone down by the quantities requested of it. *)
Theorem create_order_succeeds env order db :
  commit_error env = None →
  all_in_stock (products db) (OrderCreate.items order) →
  quantities_convert (OrderCreate.items order) →
  ∃ db_order db',
    run (create_order env order) db = (inr db_order, db') ∧
    orders db !! Order.id db_order = None ∧
    orders db' !! Order.id db_order = Some db_order ∧
    Order.status db_order = "pending" ∧
    sum_price_times_quantity (products db) (OrderCreate.items order) 0%float
      = Some (Order.total_amount db_order) ∧
    (∀ pid, Product.stock <$> products db' !! pid
            = (λ p, Product.stock p - requested pid (OrderCreate.items order))
                <$> products db !! pid).
Proof.
  intros Hc Hstock Hconv.
  destruct (process_items_in_stock env _ (0%float, []) (mkSession db db) Hstock Hconv)
    as (total & prods & Hsum & Hrun & Hst & _).
  simpl in Hsum, Hrun, Hst.
  eexists _, _. split.
  { unfold run. rewrite (create_order_commits _ _ _ _ _ Hrun Hc). reflexivity. }
  simpl. split; [apply next_id_fresh|].
  split; [rewrite with_new_order_orders; apply lookup_insert_eq|].
  split; [reflexivity|]. split; [exact Hsum|].
  intros pid. rewrite with_new_order_products. apply Hst.
Qed.


Lemma create_order_succeeds_witness :
  ∃ db_order db',
    run (create_order at_200 (order_of [line 1 3])) shop = (inr db_order, db') ∧
    Order.status db_order = "pending" ∧
    Order.total_amount db_order = 30%float ∧
    Product.stock <$> products db' !! 1 = Some 2.
Proof.
  assert (all_in_stock (products shop) (OrderCreate.items (order_of [line 1 3]))) as Hstock.
  { apply (all_in_stock_cons at_200 _ _ _ product_A); [reflexivity|].
    split; [simpl; lia|apply all_in_stock_nil]. }
  assert (quantities_convert (OrderCreate.items (order_of [line 1 3]))) as Hconv.
  { apply quantities_convert_cons. split; [by exists 3%float|].
    intros i Hi. by apply elem_of_nil in Hi. }
  destruct (create_order_succeeds at_200 (order_of [line 1 3]) shop eq_refl Hstock Hconv)
    as (db_order & db' & Hrun & _ & _ & Hstatus & Hsum & Hst).
  exists db_order, db'. split; [exact Hrun|]. split; [exact Hstatus|].
  split; [|rewrite Hst; reflexivity].
  assert (sum_price_times_quantity (products shop) (OrderCreate.items (order_of [line 1 3]))
            0%float = Some 30%float) as H30 by (vm_compute; reflexivity).
  congruence.
Defined.

(** C10: an order that [create_order] returns is persisted with no owning
    user, whatever the request: its [user_id] is NULL, the rows of the orders
    table are the rows there were and this one, and the order does not fit
    the response model, whose [user_id] is a required integer. *)
Theorem create_order_has_no_user env order db db_order db' :
  run (create_order env order) db = (inr db_order, db') →
  Order.user_id db_order = None ∧
  orders db' = <[Order.id db_order := db_order]> (orders db) ∧
  orders db !! Order.id db_order = None ∧
  (∀ oid o, orders db' !! oid = Some o → orders db !! oid = Some o ∨ Order.user_id o = None) ∧
  (∀ p, OrderResponse.from_orm db_order p = None).
Proof.
  intros H.
  destruct (create_order_cases env order db) as [[inner E]|(acc & prods & _ & _ & E)];
    rewrite E in H; [discriminate|].
  injection H as <- <-. rewrite with_new_order_orders. simpl.
  split; [reflexivity|]. split; [reflexivity|]. split; [apply next_id_fresh|].
  split; [|reflexivity].
  intros oid o Ho. destruct (decide (next_id (orders db) = oid)) as [<-|Hne].
  - rewrite lookup_insert_eq in Ho. injection Ho as <-. by right.
  - rewrite lookup_insert_ne in Ho by done. by left.
Qed.

Lemma create_order_has_no_user_witness :
  ∃ db_order db',
    run (create_order at_200 (order_of [line 1 3])) shop = (inr db_order, db') ∧
    Order.user_id db_order = None ∧
    OrderResponse.from_orm db_order None = None.
Proof.
  eexists _, _.
  assert (run (create_order at_200 (order_of [line 1 3])) shop
          = (inr (Order.mk 1 None 30%float "pending" 200 200),
             snd (run (create_order at_200 (order_of [line 1 3])) shop))) as H
    by (vm_compute; reflexivity).
  split; [exact H|].
  destruct (create_order_has_no_user _ _ _ _ _ H) as (Huser & _ & _ & _ & Hresp).
  split; [exact Huser|apply Hresp].
Defined.

(** ** Python floats: the sign of a product and of a converted int *)

Lemma Prim2SF_inj x y : Prim2SF x = Prim2SF y → x = y.
Proof. intros H. rewrite <- (SF2Prim_Prim2SF x), <- (SF2Prim_Prim2SF y). by rewrite H. Qed.

Lemma SFopp_involutive x : SFopp (SFopp x) = x.
Proof. destruct x as [[]|[]| |[] ? ?]; reflexivity. Qed.

Lemma float_opp_involutive x : (- - x)%float = x.
Proof. apply Prim2SF_inj. rewrite !opp_spec. apply SFopp_involutive. Qed.

Lemma SFsub_is_add_opp p e x y : SFsub p e x y = SFadd p e x (SFopp y).
Proof.
  destruct x as [sx|sx| |sx mx ex], y as [sy|sy| |sy my ey]; simpl; try reflexivity;
    destruct sx, sy; reflexivity.
Qed.

Lemma binary_round_aux_negb p e s m ex l :
  binary_round_aux p e (negb s) m ex l = SFopp (binary_round_aux p e s m ex l).
Proof.
  unfold binary_round_aux.
  destruct (shr_fexp p e m ex l) as [mrs' e'].
  destruct (shr_fexp p e _ e' loc_Exact) as [mrs'' e''].
  destruct (shr_m mrs''); simpl; try reflexivity.
  destruct (e'' <=? e - p); reflexivity.
Qed.

Lemma SFmul_opp_r p e x y : SFmul p e x (SFopp y) = SFopp (SFmul p e x y).
Proof.
  destruct x as [sx|sx| |sx mx ex], y as [sy|sy| |sy my ey]; simpl; try reflexivity;
    try (destruct sx, sy; reflexivity).
  rewrite <- binary_round_aux_negb. f_equal. destruct sx, sy; reflexivity.
Qed.

(** [t + x * (-f)] is [t - x * f], to the bit. *)
Lemma float_add_mul_opp (t x f : float) : (t + x * - f)%float = (t - x * f)%float.
Proof.
  apply Prim2SF_inj. rewrite add_spec, sub_spec, !mul_spec, opp_spec.
  unfold SF64add, SF64sub, SF64mul. rewrite SFmul_opp_r. symmetry. apply SFsub_is_add_opp.
Qed.

Lemma binary_normalize_opp p e m ex :
  m ≠ 0 → binary_normalize p e (- m) ex false = SFopp (binary_normalize p e m ex false).
Proof.
  destruct m as [|m|m]; simpl; intros H; [done| |].
  - unfold binary_round. destruct (shl_align _ _ _). apply (binary_round_aux_negb p e false).
  - unfold binary_round. destruct (shl_align _ _ _).
    rewrite (binary_round_aux_negb p e false). by rewrite SFopp_involutive.
Qed.

Lemma SF2Prim_opp x : SF2Prim (SFopp x) = (- SF2Prim x)%float.
Proof.
  destruct x as [[]|[]| |[] m e]; simpl; try reflexivity.
  by rewrite float_opp_involutive.
Qed.

Lemma is_infinity_opp x : is_infinity (- x) = is_infinity x.
Proof.
  unfold is_infinity. f_equal. apply Prim2SF_inj. rewrite !abs_spec, opp_spec.
  by destruct (Prim2SF x).
Qed.

(** [float(-z)] is [-float(z)], and overflows when [float(z)] does. *)
Lemma float_of_int_opp z :
  z ≠ 0 →
  float_of_int (- z)
  = match float_of_int z with inl e => inl e | inr f => inr (- f)%float end.
Proof.
  intros Hz. unfold float_of_int. rewrite binary_normalize_opp by done.
  rewrite SF2Prim_opp, is_infinity_opp.
  by destruct (is_infinity (SF2Prim (binary_normalize prec emax z 0 false))).
Qed.

(** A turn of the loop of [create_order] on a line with a negative quantity,
    for a product that exists and whose working stock is not negative: the
    stock check passes, the working stock goes up by the absolute quantity,
    and the running total goes down by price × |quantity| ([f] is
    |quantity| as a float).  Nothing in the turn looks at the sign of the
    quantity. *)
Theorem process_item_negative_quantity env item acc s p f :
  products (pending s) !! OrderItemBase.product_id item = Some p →
  0 ≤ Product.stock p →
  OrderItemBase.quantity item < 0 →
  float_of_int (Z.abs (OrderItemBase.quantity item)) = inr f →
  ∃ s',
    process_item env item acc s
      = (inr (PrimFloat.sub (fst acc) (PrimFloat.mul (Product.price p) f),
              snd acc ++ [OrderItemBase.product_id item]), s') ∧
    Product.stock <$> products (pending s') !! OrderItemBase.product_id item
      = Some (Product.stock p + Z.abs (OrderItemBase.quantity item)).
Proof.
  intros Hp Hstock Hneg Hf. exists (after_line env item p s). split.
  - rewrite <- float_add_mul_opp. apply process_item_taken; [done|lia|].
    unfold float_mul_int.
    replace (OrderItemBase.quantity item) with (- Z.abs (OrderItemBase.quantity item)) by lia.
    rewrite float_of_int_opp by lia. by rewrite Hf.
  - simpl. rewrite lookup_alter_eq, Hp. simpl. rewrite write_stock_stock. f_equal. lia.
Qed.

Lemma process_item_negative_quantity_witness :
  ∃ s',
    process_item at_200 (line 1 (-3)) (0%float, []) (mkSession shop shop)
      = (inr ((-30)%float, [1]), s') ∧
    Product.stock <$> products (pending s') !! 1 = Some 8.
Proof.
  destruct (process_item_negative_quantity at_200 (line 1 (-3)) (0%float, [])
              (mkSession shop shop) product_A 3%float)
    as (s' & Hrun & Hstock); [reflexivity|simpl; lia|simpl; lia|reflexivity|].
  exists s'. split; [exact Hrun|exact Hstock].
Defined.

(** A quantity of zero passes the check as well, when the stock is not
    negative, and leaves the stock as it is. *)
Lemma process_item_zero_quantity env item acc s p :
  products (pending s) !! OrderItemBase.product_id item = Some p →
  0 ≤ Product.stock p →
  OrderItemBase.quantity item = 0 →
  ∃ r s',
    process_item env item acc s = (inr r, s') ∧
    products (pending s') !! OrderItemBase.product_id item = Some p.
Proof.
  intros Hp Hstock Hq.
  assert (float_mul_int (Product.price p) (OrderItemBase.quantity item)
          = inr (PrimFloat.mul (Product.price p) 0%float)) as Hm by (by rewrite Hq).
  eexists _, _. split; [apply (process_item_taken env item acc s p); [exact Hp|lia|exact Hm]|].
  simpl. rewrite lookup_alter_eq, Hp. simpl. f_equal.
  unfold write_stock. rewrite Hq, Z.sub_0_r, Z.eqb_refl. reflexivity.
Qed.

(** End to end: the order of minus three units of product A is committed,
    with total -30.0, and leaves 8 in stock where there were 5. *)
Example create_order_negative_line_commits :
  ∃ db',
    run (create_order at_200 (order_of [line 1 (-3)])) shop
      = (inr (Order.mk 1 None (-30)%float "pending" 200 200), db') ∧
    Product.stock <$> products db' !! 1 = Some 8.
Proof. eexists. split; [vm_compute; reflexivity|reflexivity]. Qed.

(** ** A line with a negative quantity, in the order that is created *)




(** With its negative quantity, a line is in stock whenever what the earlier
    lines have left of its product is not negative. *)
Lemma negative_line_in_stock prods earlier item p :
  prods !! OrderItemBase.product_id item = Some p →
  OrderItemBase.quantity item < 0 →
  0 ≤ Product.stock p - requested (OrderItemBase.product_id item) earlier →
  line_in_stock prods earlier item.
Proof. intros Hp Hq Hleft. exists p. split; [done|]. lia. Qed.




(** ** [update_stock] *)

Lemma in_valid_operations op :
  op ∈ ["increase"; "decrease"] → op = "increase" ∨ op = "decrease".
Proof.
  intros H. apply elem_of_cons in H as [->|H]; [by left|].
  apply elem_of_cons in H as [->|H]; [by right|]. by apply elem_of_nil in H.
Qed.

(** The two ways [update_stock] can go: it raises and the database is as it
    was, or it commits the new stock and the timestamp. *)
Lemma update_stock_cases env pid q op db :
  (∃ e, run (update_stock env pid q op) db = (inl e, db)) ∨
  (∃ p v,
     products db !! pid = Some p ∧ commit_error env = None ∧
     (op = "increase" ∧ v = Product.stock p + q ∨
      op = "decrease" ∧ q ≤ Product.stock p ∧ v = Product.stock p - q) ∧
     run (update_stock env pid q op) db
       = (inr (mkStockUpdated "Stock updated successfully" v), stock_written env pid v db)).
Proof.
  unfold run, update_stock. unfold_M.
  destruct (bool_decide (op ∈ ["increase"; "decrease"])) eqn:Hop; simpl; [|by left; eexists].
  apply bool_decide_eq_true in Hop. simpl.
  destruct (products db !! pid) as [p|] eqn:Hp; simpl; [|by left; eexists].
  apply in_valid_operations in Hop as [-> | ->]; simpl.
  - destruct (commit_error env) as [msg|] eqn:Hc; simpl; [by left; eexists|].
    right. exists p, (Product.stock p + q). split; [done|]. split; [done|].
    split; [by left|]. rewrite !lookup_alter_eq, Hp. reflexivity.
  - destruct (Z.ltb_spec (Product.stock p) q) as [Hlt|Hge]; simpl; [by left; eexists|].
    destruct (commit_error env) as [msg|] eqn:Hc; simpl; [by left; eexists|].
    right. exists p, (Product.stock p - q). split; [done|]. split; [done|].
    split; [by right|]. rewrite !lookup_alter_eq, Hp. reflexivity.
Qed.

Lemma stock_written_lookup env pid v db p :
  products db !! pid = Some p →
  products (stock_written env pid v db) !! pid
  = Some (Product.set_updated_at (utcnow env) (Product.set_stock v p)).
Proof. intros Hp. simpl. by rewrite !lookup_alter_eq, Hp. Qed.

Lemma stock_written_lookup_ne env pid v db pid' :
  pid ≠ pid' → products (stock_written env pid v db) !! pid' = products db !! pid'.
Proof. intros Hne. simpl. by rewrite !lookup_alter_ne. Qed.

(** A "decrease" by more than the stock is refused before anything is
    written. *)
Lemma update_stock_short env pid q db p :
  products db !! pid = Some p →
  Product.stock p - q < 0 →
  run (update_stock env pid q "decrease") db
    = (inl (HTTPException 400 (Text "Insufficient stock")), db).
Proof.
  intros Hp Hneg. unfold run, update_stock. unfold_M. simpl. rewrite Hp. simpl.
  destruct (Z.ltb_spec (Product.stock p) q) as [Hlt|Hge]; [reflexivity|lia].
Qed.

(** C6: [update_stock] on an existing product.  "decrease" fails with the
    Conflict condition (a 400, "Insufficient stock") and leaves the database
    as it was when the new stock would be negative, and otherwise subtracts
    the quantity; "increase" adds it; and whenever the operation succeeds the
    product has been committed with the new stock and with the timestamp of
    the request, the other products being as they were. *)
Theorem update_stock_adjusts env product_id quantity db p :
  products db !! product_id = Some p →
  (Product.stock p - quantity < 0 →
   run (update_stock env product_id quantity "decrease") db
     = (inl (HTTPException 400 (Text "Insufficient stock")), db)) ∧
  (0 ≤ Product.stock p - quantity → commit_error env = None →
   run (update_stock env product_id quantity "decrease") db
     = (inr (mkStockUpdated "Stock updated successfully" (Product.stock p - quantity)),
        stock_written env product_id (Product.stock p - quantity) db)) ∧
  (commit_error env = None →
   run (update_stock env product_id quantity "increase") db
     = (inr (mkStockUpdated "Stock updated successfully" (Product.stock p + quantity)),
        stock_written env product_id (Product.stock p + quantity) db)) ∧
  (∀ operation_name r db',
     run (update_stock env product_id quantity operation_name) db = (inr r, db') →
     ∃ v,
       (operation_name = "increase" ∧ v = Product.stock p + quantity ∨
        operation_name = "decrease" ∧ 0 ≤ v ∧ v = Product.stock p - quantity) ∧
       new_stock r = v ∧
       products db' !! product_id
         = Some (Product.set_updated_at (utcnow env) (Product.set_stock v p)) ∧
       (∀ pid', product_id ≠ pid' → products db' !! pid' = products db !! pid')).
Proof.
  intros Hp. split; [|split; [|split]].
  - intros Hneg. by apply (update_stock_short env product_id quantity db p).
  - intros Hok Hc.
    destruct (update_stock_cases env product_id quantity "decrease" db)
      as [[e E]|(p' & v & Hp' & _ & Hv & E)].
    + exfalso. revert E. unfold run, update_stock. unfold_M. simpl. rewrite Hp. simpl.
      destruct (Z.ltb_spec (Product.stock p) quantity) as [Hlt|Hge]; [lia|].
      simpl. rewrite Hc. simpl. rewrite !lookup_alter_eq, Hp. discriminate.
    + rewrite Hp in Hp'. injection Hp' as <-.
      destruct Hv as [[? _]|(_ & _ & ->)]; [discriminate|]. exact E.
  - intros Hc.
    destruct (update_stock_cases env product_id quantity "increase" db)
      as [[e E]|(p' & v & Hp' & _ & Hv & E)].
    + exfalso. revert E. unfold run, update_stock. unfold_M. simpl. rewrite Hp. simpl.
      rewrite Hc. simpl. rewrite !lookup_alter_eq, Hp. discriminate.
    + rewrite Hp in Hp'. injection Hp' as <-.
      destruct Hv as [[_ ->]|(? & _ & _)]; [|discriminate]. exact E.
  - intros op r db' H.
    destruct (update_stock_cases env product_id quantity op db)
      as [[e E]|(p' & v & Hp' & _ & Hv & E)]; rewrite E in H; [discriminate|].
    injection H as <- <-. rewrite Hp in Hp'. injection Hp' as <-.
    exists v. split; [destruct Hv as [[? ?]|(? & ? & ?)]; [left|right]; split; auto; lia|].
    split; [reflexivity|]. split; [by apply stock_written_lookup|].
    intros pid' Hne. by apply stock_written_lookup_ne.
Qed.

Lemma update_stock_adjusts_witness :
  run (update_stock at_200 1 7 "decrease") shop
    = (inl (HTTPException 400 (Text "Insufficient stock")), shop) ∧
  run (update_stock at_200 1 2 "decrease") shop
    = (inr (mkStockUpdated "Stock updated successfully" 3), stock_written at_200 1 3 shop) ∧
  run (update_stock at_200 1 2 "increase") shop
    = (inr (mkStockUpdated "Stock updated successfully" 7), stock_written at_200 1 7 shop) ∧
  products (stock_written at_200 1 3 shop) !! 1 = Some (Product.mk 1 "A" None 10%float 3 100 200).
Proof.
  destruct (update_stock_adjusts at_200 1 7 shop product_A eq_refl) as (Hneg & _).
  destruct (update_stock_adjusts at_200 1 2 shop product_A eq_refl) as (_ & Hdec & Hinc & _).
  split; [apply Hneg; simpl; lia|].
  split; [apply Hdec; [simpl; lia|reflexivity]|].
  split; [apply Hinc; reflexivity|]. reflexivity.
Defined.

(** ** The status updates *)

(** C7: a lab-order status update whose status is outside
    {pending, in-progress, completed, cancelled} leaves the lab orders as they
    were, but it is not rejected with the 400 the handler spells out: in this
    handler [status] is the parameter, a string, and reading
    [status.HTTP_400_BAD_REQUEST] off it raises [AttributeError] before the
    [HTTPException] is built.  The client gets a 500. *)
Theorem update_lab_order_status_invalid_is_500 env lab_order_id status db :
  status ∉ ["pending"; "in-progress"; "completed"; "cancelled"] →
  run (update_lab_order_status env lab_order_id status) db
    = (inl (AttributeError "str" "HTTP_400_BAD_REQUEST"), db) ∧
  response_status_code (error_response (AttributeError "str" "HTTP_400_BAD_REQUEST")) = 500.
Proof.
  intros H. split; [|reflexivity]. unfold run, update_lab_order_status. unfold_M.
  rewrite bool_decide_eq_false_2 by done. reflexivity.
Qed.

Lemma update_lab_order_status_invalid_is_500_witness :
  run (update_lab_order_status at_200 1 "shipped") lab
    = (inl (AttributeError "str" "HTTP_400_BAD_REQUEST"), lab) ∧
  lab_orders lab !! 1 = Some lab_order_1.
Proof.
  split; [|reflexivity].
  apply (update_lab_order_status_invalid_is_500 at_200 1 "shipped" lab).
  intros Hin. repeat (apply elem_of_cons in Hin as [Heq|Hin]; [discriminate Heq|]).
  by apply elem_of_nil in Hin.
Defined.

(** The two ways [update_order_status] can go. *)
Lemma update_order_status_cases env order_id status db :
  (∃ e, run (update_order_status env order_id status) db = (inl e, db)) ∨
  (∃ o,
     orders db !! order_id = Some o ∧ status ∈ Order_statuses ∧ commit_error env = None ∧
     run (update_order_status env order_id status) db
       = (inr "Order status updated successfully",
          order_status_written env order_id status db)).
Proof.
  unfold run, update_order_status. unfold_M.
  destruct (bool_decide (status ∈ ["pending"; "completed"; "cancelled"])) eqn:Hst; simpl;
    [|by left; eexists].
  apply bool_decide_eq_true in Hst.
  destruct (orders db !! order_id) as [o|] eqn:Ho; simpl; [|by left; eexists].
  destruct (commit_error env) as [msg|] eqn:Hc; simpl; [by left; eexists|].
  right. exists o. rewrite lookup_alter_eq, Ho. simpl. done.
Qed.

(** C8 as stated fails: order 1 is completed, and the status update to
    "pending" succeeds and stores it, a transition the machine does not
    have out of a state it calls terminal. *)
Lemma completed_order_set_back_to_pending :
  Order.status <$> orders shop_with_completed_order !! 1 = Some "completed" ∧
  run (update_order_status at_200 1 "pending") shop_with_completed_order
    = (inr "Order status updated successfully",
       order_status_written at_200 1 "pending" shop_with_completed_order) ∧
  Order.status <$> orders (order_status_written at_200 1 "pending" shop_with_completed_order) !! 1
    = Some "pending" ∧
  ¬ spec_transition "completed" "pending".
Proof.
  split; [reflexivity|]. split; [vm_compute; reflexivity|]. split; [reflexivity|].
  intros H. inversion H.
Qed.

(** C8, amended: the status update checks the new status against
    {pending, completed, cancelled} and not against the current one.  Given
    an order that exists, a status of the three and a commit that is not
    refused, it succeeds and stores the status with the timestamp of the
    request, whatever the status was; and whatever the request, a status
    outside the three is never stored: an order of the database afterwards is
    an order as it was before or has a status of the three. *)
Theorem update_order_status_any_to_any env order_id status db :
  (∀ o, orders db !! order_id = Some o → status ∈ Order_statuses → commit_error env = None →
     run (update_order_status env order_id status) db
       = (inr "Order status updated successfully",
          order_status_written env order_id status db) ∧
     orders (order_status_written env order_id status db) !! order_id
       = Some (Order.set_updated_at (utcnow env) (Order.set_status status o))) ∧
  (∀ r db' oid o', run (update_order_status env order_id status) db = (r, db') →
     orders db' !! oid = Some o' →
     orders db !! oid = Some o' ∨ Order.status o' ∈ Order_statuses).
Proof.
  split.
  - intros o Ho Hst Hc.
    destruct (update_order_status_cases env order_id status db) as [[e E]|(o' & _ & _ & _ & E)].
    + exfalso. revert E. unfold run, update_order_status. unfold_M.
      rewrite bool_decide_eq_true_2 by done. simpl. rewrite Ho. simpl. rewrite Hc. simpl.
      rewrite lookup_alter_eq, Ho. discriminate.
    + split; [exact E|]. simpl. by rewrite lookup_alter_eq, Ho.
  - intros r db' oid o' H Ho'.
    destruct (update_order_status_cases env order_id status db)
      as [[e E]|(o & Ho & Hst & _ & E)]; rewrite E in H.
    + injection H as _ <-. by left.
    + injection H as _ <-. simpl in Ho'. rewrite lookup_alter in Ho'.
      case_decide as Hd; [|by left]. subst oid. rewrite Ho in Ho'. simpl in Ho'.
      injection Ho' as <-. right. exact Hst.
Qed.

Lemma update_order_status_any_to_any_witness :
  run (update_order_status at_200 1 "cancelled") shop_with_completed_order
    = (inr "Order status updated successfully",
       order_status_written at_200 1 "cancelled" shop_with_completed_order) ∧
  orders (order_status_written at_200 1 "cancelled" shop_with_completed_order) !! 1
    = Some (Order.mk 1 None 30%float "cancelled" 200 200).
Proof.
  apply (proj1 (update_order_status_any_to_any at_200 1 "cancelled" shop_with_completed_order)
           completed_order); [reflexivity| |reflexivity].
  unfold Order_statuses. do 2 apply list_elem_of_further. apply list_elem_of_here.
Defined.

(** ** The stock is not negative *)

(** The two ways [update_product] can go. *)
Lemma update_product_cases env pid u db :
  (∃ e, run (update_product env pid u) db = (inl e, db)) ∨
  (∃ p r,
     products db !! pid = Some p ∧ commit_error env = None ∧
     run (update_product env pid u) db = (inr r, product_written env pid u db)).
Proof.
  unfold run, update_product. unfold_M. simpl.
  destruct (products db !! pid) as [p|] eqn:Hp; simpl; [|by left; eexists].
  destruct (negb (String.eqb (ProductCreate.name u) (Product.name p))); simpl.
  - destruct (List.find _ (map_to_list (products db))) as [[k existing]|]; simpl;
      [by left; eexists|].
    destruct (commit_error env) as [msg|] eqn:Hc; simpl; [by left; eexists|].
    right. rewrite lookup_alter_eq, Hp. simpl. eauto.
  - destruct (commit_error env) as [msg|] eqn:Hc; simpl; [by left; eexists|].
    right. rewrite lookup_alter_eq, Hp. simpl. eauto.
Qed.

(** The loop of [create_order] keeps the stocks of the working copy from
    going below zero, whatever the signs of the quantities. *)
Lemma process_items_stock_nonneg env items : ∀ acc s r s',
  stock_nonneg (pending s) →
  process_items env items acc s = (r, s') →
  stock_nonneg (pending s').
Proof.
  induction items as [|item rest IH]; intros acc s r s' Hinv H; simpl in H.
  - unfold ret in H. by injection H as _ <-.
  - assert (∀ p, products (pending s) !! OrderItemBase.product_id item = Some p →
                 OrderItemBase.quantity item ≤ Product.stock p →
                 stock_nonneg (pending (after_line env item p s))) as Hline.
    { intros p Hp Hq pid p' Hp'. simpl in Hp'. rewrite lookup_alter in Hp'.
      case_decide as Hd; [|by eapply Hinv]. subst pid. rewrite Hp in Hp'. simpl in Hp'.
      injection Hp' as <-. rewrite write_stock_stock. lia. }
    unfold bind in H.
    destruct (process_item_cases env item acc s)
      as [(_ & d & E)|[(p & _ & _ & d & E)|[(p & e & Hp & Hq & _ & E)|(p & a & Hp & Hq & _ & E)]]];
      rewrite E in H.
    + by injection H as _ <-.
    + by injection H as _ <-.
    + injection H as _ <-. by apply Hline.
    + eapply IH; [|exact H]. by apply Hline.
Qed.

Lemma create_order_stock_nonneg env order db :
  stock_nonneg db → stock_nonneg (snd (run (create_order env order) db)).
Proof.
  intros Hinv.
  destruct (create_order_cases env order db) as [[e E]|(acc & prods & Hloop & _ & E)];
    rewrite E; simpl; [done|].
  apply process_items_stock_nonneg in Hloop; [|done]. simpl in Hloop.
  intros pid p. rewrite with_new_order_products. apply Hloop.
Qed.

Lemma update_stock_stock_nonneg env pid q op db :
  (op = "increase" → 0 ≤ q) →
  stock_nonneg db → stock_nonneg (snd (run (update_stock env pid q op) db)).
Proof.
  intros Hsane Hinv.
  destruct (update_stock_cases env pid q op db) as [[e E]|(p & v & Hp & _ & Hv & E)];
    rewrite E; simpl; [done|].
  assert (0 ≤ v) as Hv0.
  { specialize (Hinv pid p Hp). destruct Hv as [[Hop ->]|(_ & ? & ->)]; [|lia].
    specialize (Hsane Hop). lia. }
  intros pid' p'. destruct (decide (pid = pid')) as [<-|Hne].
  - rewrite (stock_written_lookup _ _ _ _ _ Hp). by intros [= <-].
  - rewrite stock_written_lookup_ne by done. apply Hinv.
Qed.

Lemma update_product_stock_nonneg env pid u db :
  0 ≤ ProductCreate.stock u →
  stock_nonneg db → stock_nonneg (snd (run (update_product env pid u) db)).
Proof.
  intros Hsane Hinv.
  destruct (update_product_cases env pid u db) as [[e E]|(p & r & Hp & _ & E)];
    rewrite E; simpl; [done|].
  intros pid' p'. simpl. rewrite lookup_alter. case_decide as Hd; [|apply Hinv].
  subst pid'. rewrite Hp. simpl. by intros [= <-].
Qed.

Lemma shop_stock_nonneg : stock_nonneg shop.
Proof.
  intros pid p Hp. destruct (decide (pid = 1)) as [->|Hne].
  - unfold shop in Hp. simpl in Hp. rewrite lookup_singleton_eq in Hp.
    injection Hp as <-. simpl. lia.
  - unfold shop in Hp. simpl in Hp. by rewrite lookup_singleton_ne in Hp.
Qed.

(** C5 as stated fails: the shop's one product has stock 5; a product update
    whose payload has stock -1 commits it, and so does an "increase" by -7,
    which leaves -2. *)
Lemma stock_made_negative :
  stock_nonneg shop ∧
  Product.stock <$>
    products (perform_all [(at_200, UpdateProduct 1 (ProductCreate.mk "A" None 10%float (-1)))]
                shop) !! 1 = Some (-1) ∧
  Product.stock <$>
    products (perform_all [(at_200, UpdateStock 1 (-7) "increase")] shop) !! 1 = Some (-2).
Proof.
  split; [apply shop_stock_nonneg|split; reflexivity].
Qed.

(** C5, amended: the decrements are guarded, the other writes of the stock
    are not.  Under any sequence of order creations, stock adjustments and
    product updates in which no "increase" has a negative quantity and no
    product update carries a negative stock, no product's stock becomes
    negative; and a decrement that would take a stock below zero, by a line
    of an order or by a "decrease", is refused with the database as it was. *)
Theorem stock_never_negative :
  (∀ reqs db,
     stock_nonneg db → Forall (λ req, sane (snd req)) reqs →
     stock_nonneg (perform_all reqs db)) ∧
  (∀ env order db earlier item later p,
     OrderCreate.items order = earlier ++ item :: later →
     products db !! OrderItemBase.product_id item = Some p →
     Product.stock p - requested (OrderItemBase.product_id item) earlier
       - OrderItemBase.quantity item < 0 →
     ∃ e, run (create_order env order) db = (inl e, db)) ∧
  (∀ env pid q db p,
     products db !! pid = Some p →
     Product.stock p - q < 0 →
     ∃ e, run (update_stock env pid q "decrease") db = (inl e, db)).
Proof.
  split; [|split].
  - induction reqs as [|[env op] rest IH]; intros db Hinv Hsane; simpl; [done|].
    apply Forall_cons in Hsane as [Hop Hrest]. apply IH; [|done].
    destruct op as [order|pid q o|pid u]; simpl in *.
    + by apply create_order_stock_nonneg.
    + by apply update_stock_stock_nonneg.
    + by apply update_product_stock_nonneg.
  - intros env order db earlier item later p Heq Hp Hlt.
    eapply create_order_short_stock_fails; eauto. lia.
  - intros env pid q db p Hp Hlt. eexists. by apply (update_stock_short env pid q db p).
Qed.

Lemma stock_never_negative_witness :
  stock_nonneg
    (perform_all
       [(at_200, CreateOrder (order_of [line 1 3]));
        (at_200, UpdateStock 1 2 "decrease");
        (at_200, UpdateProduct 1 (ProductCreate.mk "A" None 12%float 0));
        (at_200, UpdateStock 1 4 "increase")]
       shop).
Proof.
  apply (proj1 stock_never_negative).
  - apply shop_stock_nonneg.
  - repeat apply Forall_cons_2; try apply Forall_nil_2; simpl; try done; intros; lia.
Defined.

(** * The other handlers *)

Ltac unfold_handlers :=
  unfold insert_product, insert_lab_order, query_prescription, refresh_prescription in *;
  unfold_M.

(** ** Looking a product up by its name *)

Lemma query_product_by_name_None n s :
  (∃ s', query_product_by_name n s = (inr None, s')) ↔ ¬ name_in_use (pending s) n.
Proof.
  unfold query_product_by_name. unfold_M. split.
  - intros (s' & H) (pid & p & Hp & Hn).
    destruct (List.find _ (map_to_list (products (pending s)))) as [kv|] eqn:E;
      [discriminate|].
    assert (String.eqb (Product.name (snd (pid, p))) n = false) as Hf.
    { apply (List.find_none _ _ E (pid, p)).
      apply list_elem_of_In, elem_of_map_to_list. exact Hp. }
    simpl in Hf. rewrite Hn, String.eqb_refl in Hf. discriminate.
  - intros Hfree.
    destruct (List.find _ (map_to_list (products (pending s)))) as [[pid p]|] eqn:E;
      [|by eexists].
    exfalso. apply Hfree. apply List.find_some in E as [Hin Hn].
    exists pid, p. split.
    + by apply elem_of_map_to_list, list_elem_of_In.
    + simpl in Hn. by apply String.eqb_eq in Hn.
Qed.

Lemma query_product_by_name_pure n s :
  ∃ r, query_product_by_name n s = (inr r, s).
Proof. unfold query_product_by_name. unfold_M. by eexists. Qed.

Lemma query_product_by_name_free n s :
  ¬ name_in_use (pending s) n → query_product_by_name n s = (inr None, s).
Proof.
  intros Hfree. apply query_product_by_name_None in Hfree as [s' H].
  destruct (query_product_by_name_pure n s) as [r Hr]. congruence.
Qed.

Lemma query_product_by_name_used n s :
  name_in_use (pending s) n → ∃ p, query_product_by_name n s = (inr (Some p), s).
Proof.
  intros Hused. destruct (query_product_by_name_pure n s) as [[p|] Hr]; [by exists p|].
  exfalso. revert Hused. apply query_product_by_name_None. eauto.
Qed.

(** ** [create_product], [add_product], [get_product], [delete_product] *)

Lemma create_product_run env product db :
  run (create_product env product) db
  = match commit_error env with
    | Some msg => (inl (HTTPException 400 (Str (SQLAlchemyError msg))), db)
    | None => (inr (new_product env product db), product_inserted env product db)
    end.
Proof.
  unfold run, create_product. unfold_handlers. simpl.
  destruct (commit_error env); simpl; [reflexivity|].
  rewrite lookup_insert_eq. reflexivity.
Qed.

Lemma add_product_run env product db :
  (name_in_use db (ProductCreate.name product) →
   run (add_product env product) db
   = (inl (HTTPException 400 (Text "Product with this name already exists")), db)) ∧
  (¬ name_in_use db (ProductCreate.name product) →
   run (add_product env product) db = run (create_product env product) db).
Proof.
  split; intros H.
  - unfold run, add_product, bind at 1.
    destruct (query_product_by_name_used (ProductCreate.name product) (mkSession db db) H)
      as [p ->].
    reflexivity.
  - unfold run, add_product, bind at 1.
    rewrite (query_product_by_name_free (ProductCreate.name product) (mkSession db db) H).
    reflexivity.
Qed.

Lemma get_product_run product_id db :
  run (get_product product_id) db
  = match products db !! product_id with
    | Some p => (inr p, db)
    | None => (inl (HTTPException 404 (Text "Product not found")), db)
    end.
Proof.
  unfold run, get_product. unfold_M. simpl. by destruct (products db !! product_id).
Qed.

Lemma delete_product_run env product_id db :
  run (delete_product env product_id) db
  = match products db !! product_id, commit_error env with
    | None, _ => (inl (HTTPException 404 (Text "Product not found")), db)
    | Some _, Some msg => (inl (HTTPException 400 (Str (SQLAlchemyError msg))), db)
    | Some _, None =>
        (inr "Product deleted successfully", with_products (delete product_id) db)
    end.
Proof.
  unfold run, delete_product. unfold_M. simpl.
  destruct (products db !! product_id); simpl; [|reflexivity].
  by destruct (commit_error env).
Qed.

(** X1: the product [create_product] returns can be read back.  When the
    handler succeeds, the product it returns carries the payload and the
    clock of the request under a key no product had, [get_product] on that
    key returns it, and the other products are as they were.  The name of the
    payload is not looked at: it may be the name of a product the database
    already has. *)
Theorem create_product_then_get env product db p db' :
  run (create_product env product) db = (inr p, db') →
  products db !! Product.id p = None ∧
  p = Product.mk (Product.id p) (ProductCreate.name product)
        (ProductCreate.description product) (ProductCreate.price product)
        (ProductCreate.stock product) (utcnow env) (utcnow env) ∧
  run (get_product (Product.id p)) db' = (inr p, db') ∧
  (∀ pid, pid ≠ Product.id p → products db' !! pid = products db !! pid).
Proof.
  rewrite create_product_run. destruct (commit_error env); [discriminate|].
  intros [= <- <-]. simpl. split; [apply next_id_fresh|]. split; [reflexivity|]. split.
  - rewrite get_product_run. simpl. by rewrite lookup_insert_eq.
  - intros pid Hne. by rewrite lookup_insert_ne.
Qed.

Lemma create_product_then_get_witness :
  ∃ p db',
    run (create_product at_200 (ProductCreate.mk "A" None 12%float 1)) shop = (inr p, db') ∧
    Product.id p = 2 ∧ Product.name p = Product.name product_A ∧
    run (get_product 2) db' = (inr p, db') ∧
    products db' !! 1 = Some product_A.
Proof.
  eexists _, _.
  assert (run (create_product at_200 (ProductCreate.mk "A" None 12%float 1)) shop
          = (inr (Product.mk 2 "A" None 12%float 1 200 200),
             product_inserted at_200 (ProductCreate.mk "A" None 12%float 1) shop)) as H
    by (vm_compute; reflexivity).
  destruct (create_product_then_get _ _ _ _ _ H) as (_ & _ & Hget & Hother).
  split; [exact H|]. split; [reflexivity|]. split; [reflexivity|].
  split; [exact Hget|]. rewrite (Hother 1) by (simpl; lia). reflexivity.
Defined.

(** X2: [add_product] of the inventory router is [create_product] of the POS
    router behind a check of the name.  When a product of the database has
    the name of the payload it answers 400 "Product with this name already
    exists" and writes nothing; when none has, it does what [create_product]
    does, result and database. *)
Theorem add_product_is_guarded_create_product env product db :
  (name_in_use db (ProductCreate.name product) →
   run (add_product env product) db
   = (inl (HTTPException 400 (Text "Product with this name already exists")), db)) ∧
  (¬ name_in_use db (ProductCreate.name product) →
   run (add_product env product) db = run (create_product env product) db).
Proof. apply add_product_run. Qed.

Lemma shop_name_free n : n ≠ "A" → ¬ name_in_use shop n.
Proof.
  intros Hn (pid & p & Hp & Hname). destruct (decide (pid = 1)) as [->|Hne].
  - unfold shop in Hp. simpl in Hp. rewrite lookup_singleton_eq in Hp.
    injection Hp as <-. by apply Hn.
  - unfold shop in Hp. simpl in Hp. by rewrite lookup_singleton_ne in Hp.
Qed.

Lemma add_product_is_guarded_create_product_witness :
  run (add_product at_200 (ProductCreate.mk "A" None 12%float 1)) shop
    = (inl (HTTPException 400 (Text "Product with this name already exists")), shop) ∧
  run (add_product at_200 product_B) shop = run (create_product at_200 product_B) shop.
Proof.
  split.
  - apply (proj1 (add_product_is_guarded_create_product at_200 _ shop)).
    exists 1, product_A. split; reflexivity.
  - apply (proj2 (add_product_is_guarded_create_product at_200 product_B shop)).
    by apply shop_name_free.
Defined.

(** ** Products keep distinct names *)

Lemma name_in_use_dec db n : name_in_use db n ∨ ¬ name_in_use db n.
Proof.
  destruct (query_product_by_name_pure n (mkSession db db)) as [[p|] Hr].
  - left. unfold query_product_by_name in Hr. unfold_M. simpl in Hr.
    destruct (List.find _ (map_to_list (products db))) as [[pid q]|] eqn:E; [|discriminate].
    apply List.find_some in E as [Hin Hn]. exists pid, q. split.
    + by apply elem_of_map_to_list, list_elem_of_In.
    + simpl in Hn. by apply String.eqb_eq in Hn.
  - right. apply (query_product_by_name_None n (mkSession db db)). eauto.
Qed.

Lemma names_unique_insert env product db :
  names_unique db → ¬ name_in_use db (ProductCreate.name product) →
  names_unique (product_inserted env product db).
Proof.
  intros Huniq Hfree i j p q Hp Hq Hn. simpl in Hp, Hq.
  destruct (decide (next_id (products db) = i)) as [<-|Hi],
           (decide (next_id (products db) = j)) as [<-|Hj]; [done| | |].
  - rewrite lookup_insert_eq in Hp. rewrite lookup_insert_ne in Hq by done.
    injection Hp as <-. exfalso. apply Hfree. exists j, q. split; [done|]. by rewrite <- Hn.
  - rewrite lookup_insert_eq in Hq. rewrite lookup_insert_ne in Hp by done.
    injection Hq as <-. exfalso. apply Hfree. exists i, p. split; [done|]. by rewrite Hn.
  - rewrite lookup_insert_ne in Hp, Hq by done. by eapply Huniq.
Qed.

Lemma names_unique_delete pid db :
  names_unique db → names_unique (with_products (delete pid) db).
Proof.
  intros Huniq i j p q Hp Hq Hn. simpl in Hp, Hq.
  apply lookup_delete_Some in Hp as [_ Hp]. apply lookup_delete_Some in Hq as [_ Hq].
  by eapply Huniq.
Qed.

(** A write that keeps the names keeps them distinct. *)
Lemma names_unique_same_names db db' :
  (∀ pid, Product.name <$> products db' !! pid = Product.name <$> products db !! pid) →
  names_unique db → names_unique db'.
Proof.
  intros Hsame Huniq i j p q Hp Hq Hn.
  pose proof (Hsame i) as Hi. pose proof (Hsame j) as Hj. rewrite Hp in Hi. rewrite Hq in Hj.
  destruct (products db !! i) as [p0|] eqn:Hp0; [|discriminate].
  destruct (products db !! j) as [q0|] eqn:Hq0; [|discriminate].
  simpl in Hi, Hj. injection Hi as Hi. injection Hj as Hj.
  apply (Huniq i j p0 q0 Hp0 Hq0). congruence.
Qed.

Lemma find_name_Some db n kv :
  List.find (λ kv : Z * Product.t, String.eqb (Product.name (snd kv)) n)
            (map_to_list (products db)) = Some kv →
  name_in_use db n.
Proof.
  intros E. apply List.find_some in E as [Hin Hn]. destruct kv as [pid q].
  exists pid, q. split.
  - by apply elem_of_map_to_list, list_elem_of_In.
  - simpl in Hn. by apply String.eqb_eq in Hn.
Qed.

Lemma find_name_None db n :
  List.find (λ kv : Z * Product.t, String.eqb (Product.name (snd kv)) n)
            (map_to_list (products db)) = None →
  ¬ name_in_use db n.
Proof.
  intros E (pid & p & Hp & Hn).
  assert (String.eqb (Product.name (snd (pid, p))) n = false) as Hf.
  { apply (List.find_none _ _ E (pid, p)).
    apply list_elem_of_In, elem_of_map_to_list. exact Hp. }
  simpl in Hf. rewrite Hn, String.eqb_refl in Hf. discriminate.
Qed.

(** The four ways [update_product] can go. *)
Lemma update_product_run env pid u db :
  match products db !! pid with
  | None => run (update_product env pid u) db
            = (inl (HTTPException 404 (Text "Product not found")), db)
  | Some p =>
      (ProductCreate.name u ≠ Product.name p ∧ name_in_use db (ProductCreate.name u) ∧
       run (update_product env pid u) db
       = (inl (HTTPException 400 (Text "Product with this name already exists")), db)) ∨
      ((ProductCreate.name u = Product.name p ∨ ¬ name_in_use db (ProductCreate.name u)) ∧
       run (update_product env pid u) db
       = match commit_error env with
         | Some msg => (inl (HTTPException 400 (Str (SQLAlchemyError msg))), db)
         | None =>
             (inr (Product.mk (Product.id p) (ProductCreate.name u)
                     (ProductCreate.description u) (ProductCreate.price u)
                     (ProductCreate.stock u) (Product.created_at p) (utcnow env)),
              product_written env pid u db)
         end)
  end.
Proof.
  destruct (products db !! pid) as [p|] eqn:Hp.
  - unfold run, update_product. unfold_M. simpl. rewrite Hp.
    destruct (String.eqb_spec (ProductCreate.name u) (Product.name p)) as [Heq|Hne]; simpl.
    + right. split; [by left|].
      destruct (commit_error env); simpl; [reflexivity|].
      rewrite lookup_alter_eq, Hp. reflexivity.
    + destruct (List.find _ (map_to_list (products db))) as [kv|] eqn:E; simpl.
      * left. split; [done|]. split; [by eapply find_name_Some|]. reflexivity.
      * right. split; [right; by apply find_name_None|].
        destruct (commit_error env); simpl; [reflexivity|].
        rewrite lookup_alter_eq, Hp. reflexivity.
  - unfold run, update_product. unfold_M. simpl. by rewrite Hp.
Qed.

(** ** What [create_order] leaves alone *)

Lemma same_but_stock_refl p : same_but_stock p p.
Proof. by repeat split. Qed.

Lemma same_but_stock_trans p q r :
  same_but_stock p q → same_but_stock q r → same_but_stock p r.
Proof. unfold same_but_stock. intros (?&?&?&?&?) (?&?&?&?&?). repeat split; congruence. Qed.

Lemma write_stock_same env v p : same_but_stock p (write_stock env v p).
Proof. unfold write_stock. destruct (Product.stock p =? v); by repeat split. Qed.

Lemma option_same_refl (mp : option Product.t) : option_Forall2 same_but_stock mp mp.
Proof. destruct mp; constructor. apply same_but_stock_refl. Qed.

Lemma option_same_trans (a b c : option Product.t) :
  option_Forall2 same_but_stock a b → option_Forall2 same_but_stock b c →
  option_Forall2 same_but_stock a c.
Proof.
  intros [p q Hpq|] Hbc; inversion Hbc; subst; constructor.
  by eapply same_but_stock_trans.
Qed.

Lemma after_line_same env item p s pid :
  products (pending s) !! OrderItemBase.product_id item = Some p →
  option_Forall2 same_but_stock (products (pending s) !! pid)
    (products (pending (after_line env item p s)) !! pid).
Proof.
  intros Hp. simpl. rewrite lookup_alter. case_decide as Hd; [|apply option_same_refl].
  subst pid. rewrite Hp. simpl. constructor. apply write_stock_same.
Qed.

(** The loop adds no product, removes none, and changes of a product nothing
    but its stock and the timestamp that goes with it. *)
Lemma process_items_same env items : ∀ acc s r s' pid,
  process_items env items acc s = (r, s') →
  option_Forall2 same_but_stock (products (pending s) !! pid) (products (pending s') !! pid).
Proof.
  induction items as [|item rest IH]; intros acc s r s' pid H; simpl in H.
  - unfold ret in H. injection H as _ <-. apply option_same_refl.
  - unfold bind in H.
    destruct (process_item_cases env item acc s)
      as [(_ & d & E)|[(p & _ & _ & d & E)|[(p & e & Hp & _ & _ & E)|(p & a & Hp & _ & _ & E)]]];
      rewrite E in H.
    + injection H as _ <-. apply option_same_refl.
    + injection H as _ <-. apply option_same_refl.
    + injection H as _ <-. by apply after_line_same.
    + eapply option_same_trans; [by apply (after_line_same env item p s pid)|].
      by eapply IH.
Qed.

Lemma with_new_order_prescriptions env order acc d :
  prescriptions (with_new_order env order acc d)
  = match OrderCreate.prescription order with
    | Some payload =>
        <[next_id (prescriptions d) :=
            Prescription.mk (next_id (prescriptions d)) (next_id (orders d)) payload
              (utcnow env) (utcnow env)]> (prescriptions d)
    | None => prescriptions d
    end.
Proof. unfold with_new_order. by destruct (OrderCreate.prescription order). Qed.

Lemma with_new_order_lab_orders env order acc d :
  lab_orders (with_new_order env order acc d) = lab_orders d.
Proof. unfold with_new_order. by destruct (OrderCreate.prescription order). Qed.

(** X3: what [create_order] never does, whether it succeeds or fails.  It
    adds no product and removes none, and changes of a product nothing but
    its stock and [updated_at]: key, name, description, price and
    [created_at] stay.  It rewrites no order, no line item and no
    prescription that was there (the line items that were there are a prefix
    of those there are), and it leaves the lab orders as they were. *)
Theorem create_order_changes_stock_only env order db r db' :
  run (create_order env order) db = (r, db') →
  (∀ pid, option_Forall2 same_but_stock (products db !! pid) (products db' !! pid)) ∧
  (∀ oid o, orders db !! oid = Some o → orders db' !! oid = Some o) ∧
  order_items_rows db `prefix_of` order_items_rows db' ∧
  (∀ rid p, prescriptions db !! rid = Some p → prescriptions db' !! rid = Some p) ∧
  lab_orders db' = lab_orders db.
Proof.
  intros H.
  destruct (create_order_cases env order db) as [[inner E]|(acc & prods & Hloop & _ & E)];
    rewrite E in H.
  - injection H as _ <-. split; [intros; apply option_same_refl|]. by repeat split.
  - injection H as _ <-. split; [|split; [|split; [|split]]].
    + intros pid. rewrite with_new_order_products.
      apply (process_items_same _ _ _ _ _ _ pid) in Hloop. exact Hloop.
    + intros oid o Ho. rewrite with_new_order_orders. simpl.
      rewrite lookup_insert_ne; [done|]. intros <-. by rewrite next_id_fresh in Ho.
    + rewrite with_new_order_rows. simpl. by eexists.
    + intros rid p Hp. rewrite with_new_order_prescriptions. simpl.
      destruct (OrderCreate.prescription order); [|done].
      rewrite lookup_insert_ne; [done|]. intros <-. by rewrite next_id_fresh in Hp.
    + by rewrite with_new_order_lab_orders.
Qed.

Lemma create_order_changes_stock_only_witness :
  ∃ p',
    products (run (create_order at_300 (order_of [line 1 3])) clinic).2 !! 1 = Some p' ∧
    Product.name p' = "A" ∧ Product.price p' = 10%float ∧ Product.stock p' = 2 ∧
    orders (run (create_order at_300 (order_of [line 1 3])) clinic).2 !! 1
      = Some completed_order.
Proof.
  destruct (create_order_changes_stock_only at_300 (order_of [line 1 3]) clinic _ _ eq_refl)
    as (Hprod & Hord & _).
  specialize (Hprod 1). specialize (Hord 1 completed_order eq_refl).
  exists (Product.mk 1 "A" None 10%float 2 100 300).
  split; [vm_compute; reflexivity|]. split; [reflexivity|]. split; [reflexivity|].
  split; [reflexivity|]. exact Hord.
Defined.

(** X4: the writers of products that keep the names distinct.  When no two
    products of the database have the same name, none have after
    [add_product], [update_product], [delete_product], [update_stock] or
    [create_order], whatever the request and whether it succeeds or not. *)
Theorem names_stay_unique db :
  names_unique db →
  (∀ env product, names_unique (run (add_product env product) db).2) ∧
  (∀ env pid u, names_unique (run (update_product env pid u) db).2) ∧
  (∀ env pid, names_unique (run (delete_product env pid) db).2) ∧
  (∀ env pid q op, names_unique (run (update_stock env pid q op) db).2) ∧
  (∀ env order, names_unique (run (create_order env order) db).2).
Proof.
  intros Huniq. split; [|split; [|split; [|split]]].
  - intros env product.
    destruct (name_in_use_dec db (ProductCreate.name product)) as [Hused|Hfree].
    + by rewrite (proj1 (add_product_run env product db) Hused).
    + rewrite (proj2 (add_product_run env product db) Hfree), create_product_run.
      destruct (commit_error env); [done|]. simpl. by apply names_unique_insert.
  - intros env pid u. pose proof (update_product_run env pid u db) as H.
    destruct (products db !! pid) as [p|] eqn:Hp; [|by rewrite H].
    destruct H as [(_ & _ & ->)|[Hname ->]]; [done|].
    destruct (commit_error env); [done|]. simpl.
    intros i j pi pj Hi Hj Hn. simpl in Hi, Hj.
    destruct (decide (pid = i)) as [<-|Hi'], (decide (pid = j)) as [<-|Hj']; [done| | |].
    + rewrite lookup_alter_eq, Hp in Hi. rewrite lookup_alter_ne in Hj by done.
      simpl in Hi. injection Hi as <-. simpl in Hn.
      destruct Hname as [Hsame|Hfree].
      * apply (Huniq pid j p pj Hp Hj). congruence.
      * exfalso. apply Hfree. by exists j, pj.
    + rewrite lookup_alter_eq, Hp in Hj. rewrite lookup_alter_ne in Hi by done.
      simpl in Hj. injection Hj as <-. simpl in Hn.
      destruct Hname as [Hsame|Hfree].
      * apply (Huniq i pid pi p Hi Hp). congruence.
      * exfalso. apply Hfree. by exists i, pi.
    + rewrite lookup_alter_ne in Hi, Hj by done. by eapply Huniq.
  - intros env pid. rewrite delete_product_run.
    destruct (products db !! pid); [|done]. destruct (commit_error env); [done|].
    simpl. by apply names_unique_delete.
  - intros env pid q op.
    destruct (update_stock_cases env pid q op db) as [[e E]|(p & v & Hp & _ & _ & E)];
      rewrite E; simpl; [done|].
    apply (names_unique_same_names db); [|done]. intros pid'.
    destruct (decide (pid = pid')) as [<-|Hne].
    + rewrite (stock_written_lookup _ _ _ _ _ Hp), Hp. reflexivity.
    + by rewrite stock_written_lookup_ne.
  - intros env order.
    destruct (run (create_order env order) db) as [r db'] eqn:E. simpl.
    assert (∀ pid, option_Forall2 same_but_stock (products db !! pid) (products db' !! pid))
      as Hsame.
    { destruct (create_order_cases env order db) as [[inner E']|(acc & prods & Hloop & _ & E')];
        rewrite E' in E; injection E as _ <-; intros pid; [apply option_same_refl|].
      rewrite with_new_order_products.
      apply (process_items_same _ _ _ _ _ _ pid) in Hloop. exact Hloop. }
    apply (names_unique_same_names db); [|done]. intros pid.
    destruct (Hsame pid) as [p p' (_ & Hn & _)|]; simpl; [|done]. by rewrite Hn.
Qed.

Lemma shop_names_unique : names_unique shop.
Proof.
  intros i j p q Hp Hq _. unfold shop in Hp, Hq. simpl in Hp, Hq.
  apply lookup_singleton_Some in Hp as [<- _]. by apply lookup_singleton_Some in Hq as [<- _].
Qed.

Lemma names_stay_unique_witness :
  names_unique (run (add_product at_200 product_B) shop).2 ∧
  names_unique (run (update_product at_200 1 product_B) shop).2.
Proof.
  destruct (names_stay_unique shop shop_names_unique) as (Hadd & Hupd & _).
  split; [apply Hadd|apply Hupd].
Defined.

(** X5: [create_product] of the POS router keeps the names distinct exactly
    when it writes nothing or the name is free.  With distinct names before,
    the names are distinct after it if and only if the commit is refused or
    no product has the name of the payload: a product named as an existing
    one is committed as a second product of that name. *)
Theorem create_product_names_unique_iff env product db :
  names_unique db →
  (names_unique (run (create_product env product) db).2 ↔
   commit_error env ≠ None ∨ ¬ name_in_use db (ProductCreate.name product)).
Proof.
  intros Huniq. rewrite create_product_run. split.
  - destruct (commit_error env) as [msg|]; [by left|]. simpl. intros Hafter. right.
    intros (pid & p & Hp & Hn).
    assert (next_id (products db) = pid) as Heq.
    { apply (Hafter _ _ (new_product env product db) p).
      - simpl. apply lookup_insert_eq.
      - simpl. rewrite lookup_insert_ne; [done|]. intros <-. by rewrite next_id_fresh in Hp.
      - simpl. by rewrite Hn. }
    subst pid. by rewrite next_id_fresh in Hp.
  - intros [Hc|Hfree].
    + by destruct (commit_error env).
    + destruct (commit_error env); [done|]. simpl. by apply names_unique_insert.
Qed.

Lemma create_product_names_unique_iff_witness :
  ¬ names_unique (run (create_product at_200 (ProductCreate.mk "A" None 12%float 1)) shop).2.
Proof.
  intros H.
  apply (create_product_names_unique_iff at_200 _ shop shop_names_unique) in H as [Hc|Hfree].
  - by apply Hc.
  - apply Hfree. exists 1, product_A. split; reflexivity.
Defined.

(** ** Deleting and updating a product *)

(** X6: a product that is deleted is gone.  For a product that exists and a
    commit that is not refused, [delete_product] succeeds; afterwards
    [get_product] on its key answers 404, a second [delete_product] answers
    404 and changes nothing, and every other product is as it was. *)
Theorem delete_product_then_gone env env' product_id db p :
  products db !! product_id = Some p →
  commit_error env = None →
  ∃ db',
    run (delete_product env product_id) db = (inr "Product deleted successfully", db') ∧
    run (get_product product_id) db'
      = (inl (HTTPException 404 (Text "Product not found")), db') ∧
    run (delete_product env' product_id) db'
      = (inl (HTTPException 404 (Text "Product not found")), db') ∧
    (∀ pid, pid ≠ product_id → products db' !! pid = products db !! pid).
Proof.
  intros Hp Hc. exists (with_products (delete product_id) db).
  rewrite !delete_product_run, get_product_run, Hp, Hc. simpl.
  rewrite lookup_delete_eq. split; [done|]. split; [done|]. split; [done|].
  intros pid Hne. by rewrite lookup_delete_ne.
Qed.

Lemma delete_product_then_gone_witness :
  ∃ db',
    run (delete_product at_200 1) shop = (inr "Product deleted successfully", db') ∧
    run (get_product 1) db' = (inl (HTTPException 404 (Text "Product not found")), db').
Proof.
  destruct (delete_product_then_gone at_200 at_300 1 shop product_A eq_refl eq_refl)
    as (db' & Hdel & Hget & _).
  exists db'. by split.
Defined.

(** X7: [update_product] overwrites and can be repeated.  When it succeeds
    the product it returns has the key and [created_at] it had, the four
    fields of the payload and the clock of the request as [updated_at]; the
    other products are as they were; and the same request again, at the same
    clock, succeeds with the same product and leaves the database as the
    first left it (the name is then the product's own and is not checked
    against the others). *)
Theorem update_product_overwrites env product_id product_update db r db' :
  run (update_product env product_id product_update) db = (inr r, db') →
  (∃ p, products db !! product_id = Some p ∧
        r = Product.mk (Product.id p) (ProductCreate.name product_update)
              (ProductCreate.description product_update)
              (ProductCreate.price product_update) (ProductCreate.stock product_update)
              (Product.created_at p) (utcnow env)) ∧
  products db' !! product_id = Some r ∧
  (∀ pid, pid ≠ product_id → products db' !! pid = products db !! pid) ∧
  run (update_product env product_id product_update) db' = (inr r, db').
Proof.
  intros H. pose proof (update_product_run env product_id product_update db) as Hrun.
  destruct (products db !! product_id) as [p|] eqn:Hp; [|rewrite Hrun in H; discriminate].
  destruct Hrun as [(_ & _ & E)|[_ E]]; rewrite E in H; [discriminate|].
  destruct (commit_error env) eqn:Hc; [discriminate|]. injection H as <- <-.
  assert (products (product_written env product_id product_update db) !! product_id
          = Some (Product.mk (Product.id p) (ProductCreate.name product_update)
                    (ProductCreate.description product_update)
                    (ProductCreate.price product_update)
                    (ProductCreate.stock product_update)
                    (Product.created_at p) (utcnow env))) as Hnew.
  { simpl. by rewrite lookup_alter_eq, Hp. }
  split; [by exists p|]. split; [exact Hnew|]. split.
  { intros pid Hne. simpl. by rewrite lookup_alter_ne. }
  pose proof (update_product_run env product_id product_update
                (product_written env product_id product_update db)) as Hagain.
  rewrite Hnew in Hagain. destruct Hagain as [(Hne & _)|[_ E']]; [by destruct Hne|].
  rewrite E', Hc. simpl. f_equal.
  destruct db as [prods ords rows pres labs]. unfold product_written, with_products. simpl.
  f_equal. simpl in Hp. apply map_eq. intros pid.
  destruct (decide (product_id = pid)) as [<-|Hne].
  - by rewrite !lookup_alter_eq, Hp.
  - by rewrite !lookup_alter_ne.
Qed.

Lemma update_product_overwrites_witness :
  ∃ r db',
    run (update_product at_300 1 product_B) shop = (inr r, db') ∧
    r = Product.mk 1 "B" None 20%float 0 100 300 ∧
    run (update_product at_300 1 product_B) db' = (inr r, db').
Proof.
  assert (run (update_product at_300 1 product_B) shop
          = (inr (Product.mk 1 "B" None 20%float 0 100 300),
             product_written at_300 1 product_B shop)) as H by (vm_compute; reflexivity).
  destruct (update_product_overwrites _ _ _ _ _ _ H) as (_ & _ & _ & Hagain).
  eexists _, _. split; [exact H|]. split; [reflexivity|exact Hagain].
Defined.

(** ** Low stock *)

(** X8: [get_low_stock_products] lists the products whose stock is at most
    the threshold (10 when none is given), a stock equal to the threshold
    included, reads only, and lists more for a larger threshold. *)
Theorem get_low_stock_products_lists threshold db :
  ∃ l,
    run (get_low_stock_products threshold) db = (inr l, db) ∧
    (∀ p, p ∈ l ↔ ∃ pid, products db !! pid = Some p ∧
                         Product.stock p ≤ default 10 threshold) ∧
    (∀ t l', default 10 threshold ≤ t →
       run (get_low_stock_products (Some t)) db = (inr l', db) → l ⊆ l').
Proof.
  assert (∀ th p,
    p ∈ filter (λ p, Product.stock p ≤ default default_threshold th)
               (snd <$> map_to_list (products db))
    ↔ ∃ pid, products db !! pid = Some p ∧ Product.stock p ≤ default 10 th) as Hmem.
  { intros th p. rewrite list_elem_of_filter, list_elem_of_fmap. split.
    - intros (Hle & [pid q] & -> & Hin). apply elem_of_map_to_list in Hin. eauto.
    - intros (pid & Hp & Hle). split; [done|]. exists (pid, p). split; [done|].
      by apply elem_of_map_to_list. }
  eexists. split; [reflexivity|]. split; [apply Hmem|].
  intros t l' Ht [= <-] p Hp. apply Hmem in Hp as (pid & Hp & Hle).
  apply (Hmem (Some t)). exists pid. split; [done|]. simpl. lia.
Qed.

(** ** Stock adjustments *)

(** X9: an "increase" and then a "decrease" by the same quantity give the
    stock back.  For a product whose stock is not negative and commits that
    are not refused, both succeed whatever the quantity is, the second
    reports the stock the product had, and the product ends as it was but
    for [updated_at]. *)
Theorem update_stock_increase_then_decrease env1 env2 product_id quantity db p :
  products db !! product_id = Some p →
  0 ≤ Product.stock p →
  commit_error env1 = None →
  commit_error env2 = None →
  ∃ r1 db1 r2 db2,
    run (update_stock env1 product_id quantity "increase") db = (inr r1, db1) ∧
    run (update_stock env2 product_id quantity "decrease") db1 = (inr r2, db2) ∧
    new_stock r1 = Product.stock p + quantity ∧
    new_stock r2 = Product.stock p ∧
    products db2 !! product_id = Some (Product.set_updated_at (utcnow env2) p) ∧
    (∀ pid, pid ≠ product_id → products db2 !! pid = products db !! pid).
Proof.
  intros Hp Hstock Hc1 Hc2.
  destruct (update_stock_cases env1 product_id quantity "increase" db)
    as [[e E]|(p1 & v1 & Hp1 & _ & Hv1 & E1)].
  { exfalso. revert E. unfold run, update_stock. unfold_M. simpl. rewrite Hp. simpl.
    rewrite Hc1. simpl. rewrite !lookup_alter_eq, Hp. discriminate. }
  rewrite Hp in Hp1. injection Hp1 as <-.
  destruct Hv1 as [[_ ->]|(? & _)]; [|discriminate].
  pose proof (stock_written_lookup env1 product_id (Product.stock p + quantity) db p Hp)
    as Hmid.
  destruct (update_stock_cases env2 product_id quantity "decrease"
              (stock_written env1 product_id (Product.stock p + quantity) db))
    as [[e E]|(p2 & v2 & Hp2 & _ & Hv2 & E2)].
  { exfalso. revert E. unfold run, update_stock. unfold_M.
    cbn [bool_decide decide_rel]. simpl. rewrite !lookup_alter_eq, Hp. simpl.
    destruct (Z.ltb_spec (Product.stock p + quantity) quantity) as [Hlt|Hge]; [lia|].
    simpl. rewrite Hc2. simpl. rewrite !lookup_alter_eq, Hp. discriminate. }
  rewrite Hmid in Hp2. injection Hp2 as <-.
  destruct Hv2 as [[? _]|(_ & _ & ->)]; [discriminate|]. simpl in E2.
  eexists _, _, _, _. split; [exact E1|]. split; [exact E2|].
  split; [reflexivity|]. split; [simpl; lia|]. split.
  - rewrite (stock_written_lookup _ _ _ _ _ Hmid). destruct p. simpl. f_equal.
    unfold Product.set_updated_at, Product.set_stock. simpl. f_equal. lia.
  - intros pid Hne. rewrite !stock_written_lookup_ne by done. reflexivity.
Qed.

Lemma update_stock_increase_then_decrease_witness :
  ∃ r1 db1 r2 db2,
    run (update_stock at_200 1 (-3) "increase") shop = (inr r1, db1) ∧
    run (update_stock at_300 1 (-3) "decrease") db1 = (inr r2, db2) ∧
    new_stock r1 = 2 ∧ new_stock r2 = 5.
Proof.
  destruct (update_stock_increase_then_decrease at_200 at_300 1 (-3) shop product_A)
    as (r1 & db1 & r2 & db2 & H1 & H2 & Hn1 & Hn2 & _);
    [reflexivity|simpl; lia|reflexivity|reflexivity|].
  exists r1, db1, r2, db2. by repeat split.
Defined.

(** X10: the rejections of [update_stock] reach the client as written, and
    the operation name is checked before the product is looked up.  An
    operation other than "increase" and "decrease" is answered 400 with the
    two names in the message even when the product does not exist; a valid
    operation on a missing product is answered 404; and an "increase" whose
    commit is refused is answered 400 with the refusal as detail.  Nothing
    is written in any of the three. *)
Theorem update_stock_rejections env product_id quantity db :
  (∀ operation_name, operation_name ∉ ["increase"; "decrease"] →
   run (update_stock env product_id quantity operation_name) db
   = (inl (HTTPException 400
             (Text "Invalid operation. Must be one of: increase, decrease")), db)) ∧
  (∀ operation_name, operation_name ∈ ["increase"; "decrease"] →
   products db !! product_id = None →
   run (update_stock env product_id quantity operation_name) db
   = (inl (HTTPException 404 (Text "Product not found")), db)) ∧
  (∀ p msg, products db !! product_id = Some p → commit_error env = Some msg →
     run (update_stock env product_id quantity "increase") db
     = (inl (HTTPException 400 (Str (SQLAlchemyError msg))), db)).
Proof.
  split; [|split].
  - intros op H. unfold run, update_stock. unfold_M.
    rewrite bool_decide_eq_false_2 by done. reflexivity.
  - intros op H Hp. unfold run, update_stock. unfold_M.
    rewrite bool_decide_eq_true_2 by done. simpl. rewrite Hp. reflexivity.
  - intros p msg Hp Hc. unfold run, update_stock. unfold_M. simpl.
    rewrite Hp. simpl. rewrite Hc. reflexivity.
Qed.

Lemma update_stock_rejections_witness :
  run (update_stock at_200 999 3 "set") shop
    = (inl (HTTPException 400
              (Text "Invalid operation. Must be one of: increase, decrease")), shop) ∧
  run (update_stock at_200 999 3 "decrease") shop
    = (inl (HTTPException 404 (Text "Product not found")), shop).
Proof.
  destruct (update_stock_rejections at_200 999 3 shop) as (Hop & Hmissing & _).
  split.
  - apply Hop. intros Hin.
    repeat (apply elem_of_cons in Hin as [Heq|Hin]; [discriminate Heq|]).
    by apply elem_of_nil in Hin.
  - apply Hmissing; [|reflexivity]. apply list_elem_of_further, list_elem_of_here.
Defined.

(** ** More on [create_order] *)

(** X11: the prescription of an order.  When [create_order] succeeds on a
    request with a prescription payload, exactly one prescription is added:
    it has a new key, the key of the new order as [order_id] and the fields
    of the payload, and [get_prescription] returns it; the prescriptions
    that were there stay.  Without a payload the prescriptions are as they
    were. *)
Theorem create_order_links_prescription env order db db_order db' :
  run (create_order env order) db = (inr db_order, db') →
  match OrderCreate.prescription order with
  | Some payload =>
      let r := Prescription.mk (next_id (prescriptions db)) (Order.id db_order) payload
                 (utcnow env) (utcnow env) in
      prescriptions db !! Prescription.id r = None ∧
      prescriptions db' = <[Prescription.id r := r]> (prescriptions db) ∧
      run (get_prescription (Prescription.id r)) db' = (inr r, db')
  | None => prescriptions db' = prescriptions db
  end.
Proof.
  intros H.
  destruct (create_order_cases env order db) as [[inner E]|(acc & prods & _ & _ & E)];
    rewrite E in H; [discriminate|].
  injection H as <- <-.
  pose proof (with_new_order_prescriptions env order acc (with_products (λ _, prods) db))
    as Hpres.
  destruct (OrderCreate.prescription order) as [payload|]; [|exact Hpres].
  simpl in *. split; [apply next_id_fresh|]. split; [exact Hpres|].
  unfold run, get_prescription. unfold_handlers. simpl.
  rewrite Hpres, lookup_insert_eq. reflexivity.
Qed.

Lemma create_order_links_prescription_witness :
  ∃ db_order db',
    run (create_order at_300 (OrderCreate.mk [line 1 1] (Some progressive))) clinic
      = (inr db_order, db') ∧
    Order.id db_order = 2 ∧
    prescriptions db' !! 1 = Some prescription_1 ∧
    prescriptions db' !! 2 = Some (Prescription.mk 2 2 progressive 300 300).
Proof.
  assert (run (create_order at_300 (OrderCreate.mk [line 1 1] (Some progressive))) clinic
          = (inr (Order.mk 2 None 10%float "pending" 300 300),
             (run (create_order at_300 (OrderCreate.mk [line 1 1] (Some progressive)))
                  clinic).2)) as H by (vm_compute; reflexivity).
  pose proof (create_order_links_prescription _ _ _ _ _ H) as (_ & Hpres & _).
  eexists _, _. split; [exact H|]. split; [reflexivity|].
  rewrite Hpres. split; reflexivity.
Defined.

(** X12: an order without lines is accepted.  When the commit is not
    refused, [create_order] on an empty list of items persists a "pending"
    order of total 0.0, adds no line item, leaves every product as it was,
    and [get_order] returns the order. *)
Theorem create_order_empty env order db :
  OrderCreate.items order = [] →
  commit_error env = None →
  ∃ db_order db',
    run (create_order env order) db = (inr db_order, db') ∧
    Order.total_amount db_order = 0%float ∧
    Order.status db_order = "pending" ∧
    products db' = products db ∧
    order_items_rows db' = order_items_rows db ∧
    run (get_order (Order.id db_order)) db' = (inr db_order, db').
Proof.
  intros Hitems Hc.
  assert (process_items env (OrderCreate.items order) (0%float, []) (mkSession db db)
          = (inr (0%float, []), mkSession db db)) as Hloop by (by rewrite Hitems).
  eexists _, _. split.
  { unfold run. rewrite (create_order_commits _ _ _ _ _ Hloop Hc). reflexivity. }
  simpl. split; [reflexivity|]. split; [reflexivity|].
  split; [apply with_new_order_products|].
  split; [rewrite with_new_order_rows; simpl; apply app_nil_r|].
  unfold run, get_order. unfold_M. simpl.
  rewrite with_new_order_orders, lookup_insert_eq. reflexivity.
Qed.

Lemma create_order_empty_witness :
  ∃ db_order db',
    run (create_order at_200 (order_of [])) shop = (inr db_order, db') ∧
    Order.total_amount db_order = 0%float ∧
    products db' = products shop.
Proof.
  destruct (create_order_empty at_200 (order_of []) shop eq_refl eq_refl)
    as (db_order & db' & Hrun & Htotal & _ & Hprods & _).
  exists db_order, db'. by repeat split.
Defined.

(** ** The status updates, again *)

(** X13: [update_order_status] never answers 400 or 404.  Whatever makes it
    fail (a status outside the three, an order that does not exist, a commit
    that is refused), the exception that leaves the handler is the
    [AttributeError] of reading [HTTP_...] off the string [status], which the
    application answers with 500; the database is as it was. *)
Theorem update_order_status_failures_are_500 env order_id status db e db' :
  run (update_order_status env order_id status) db = (inl e, db') →
  db' = db ∧
  (e = AttributeError "str" "HTTP_400_BAD_REQUEST" ∨
   e = AttributeError "str" "HTTP_404_NOT_FOUND") ∧
  response_status_code (error_response e) = 500.
Proof.
  unfold run, update_order_status. unfold_M.
  destruct (bool_decide (status ∈ ["pending"; "completed"; "cancelled"])); simpl.
  - destruct (orders db !! order_id) as [o|] eqn:Ho; simpl.
    + destruct (commit_error env); simpl.
      * intros [= <- <-]. split; [done|]. split; [by left|done].
      * rewrite lookup_alter_eq, Ho. simpl. discriminate.
    + intros [= <- <-]. split; [done|]. split; [by right|done].
  - intros [= <- <-]. split; [done|]. split; [by left|done].
Qed.

Lemma update_order_status_failures_are_500_witness :
  run (update_order_status at_200 7 "completed") shop_with_completed_order
    = (inl (AttributeError "str" "HTTP_404_NOT_FOUND"), shop_with_completed_order) ∧
  response_status_code (error_response (AttributeError "str" "HTTP_404_NOT_FOUND")) = 500.
Proof.
  assert (run (update_order_status at_200 7 "completed") shop_with_completed_order
    = (inl (AttributeError "str" "HTTP_404_NOT_FOUND"), shop_with_completed_order)) as H
    by (vm_compute; reflexivity).
  split; [exact H|].
  apply (update_order_status_failures_are_500 _ _ _ _ _ _ H).
Defined.

(** ** Lab orders *)

Lemma update_lab_order_status_run env lid status db :
  run (update_lab_order_status env lid status) db
  = if bool_decide (status ∈ LabOrder_statuses) then
      match lab_orders db !! lid, commit_error env with
      | None, _ => (inl (AttributeError "str" "HTTP_404_NOT_FOUND"), db)
      | Some _, Some _ => (inl (AttributeError "str" "HTTP_400_BAD_REQUEST"), db)
      | Some _, None =>
          (inr "Lab order status updated successfully",
           lab_order_status_written env lid status db)
      end
    else (inl (AttributeError "str" "HTTP_400_BAD_REQUEST"), db).
Proof.
  unfold run, update_lab_order_status, LabOrder_statuses. unfold_M.
  destruct (bool_decide (status ∈ ["pending"; "in-progress"; "completed"; "cancelled"]));
    simpl; [|reflexivity].
  destruct (lab_orders db !! lid) as [o|] eqn:Ho; simpl; [|reflexivity].
  destruct (commit_error env); simpl; [reflexivity|].
  rewrite lookup_alter_eq, Ho. reflexivity.
Qed.

Lemma update_lab_order_notes_run env lid notes db :
  run (update_lab_order_notes env lid notes) db
  = match lab_orders db !! lid, commit_error env with
    | None, _ => (inl (HTTPException 404 (Text "Lab order not found")), db)
    | Some _, Some msg => (inl (HTTPException 400 (Str (SQLAlchemyError msg))), db)
    | Some _, None =>
        (inr "Lab order notes updated successfully",
         lab_order_notes_written env lid notes db)
    end.
Proof.
  unfold run, update_lab_order_notes. unfold_M. simpl.
  destruct (lab_orders db !! lid) as [o|] eqn:Ho; simpl; [|reflexivity].
  destruct (commit_error env); simpl; [reflexivity|].
  rewrite lookup_alter_eq, Ho. reflexivity.
Qed.

Lemma create_lab_order_run env lab_order db :
  run (create_lab_order env lab_order) db
  = match prescriptions db !! LabOrderBase.prescription_id lab_order, commit_error env with
    | None, _ => (inl (HTTPException 404 (Text "Prescription not found")), db)
    | Some _, Some msg => (inl (HTTPException 400 (Str (SQLAlchemyError msg))), db)
    | Some _, None => (inr (new_lab_order env lab_order db), lab_order_inserted env lab_order db)
    end.
Proof.
  unfold run, create_lab_order. unfold_handlers. simpl.
  destruct (prescriptions db !! LabOrderBase.prescription_id lab_order); simpl; [|reflexivity].
  destruct (commit_error env); simpl; [reflexivity|].
  rewrite lookup_insert_eq. reflexivity.
Qed.

Lemma get_lab_order_run lid db :
  run (get_lab_order lid) db
  = match lab_orders db !! lid with
    | Some o => (inr o, db)
    | None => (inl (HTTPException 404 (Text "Lab order not found")), db)
    end.
Proof. unfold run, get_lab_order. unfold_M. simpl. by destruct (lab_orders db !! lid). Qed.

Lemma update_prescription_run env rid u db :
  run (update_prescription env rid u) db
  = match prescriptions db !! rid, commit_error env with
    | None, _ => (inl (HTTPException 404 (Text "Prescription not found")), db)
    | Some _, Some msg => (inl (HTTPException 400 (Str (SQLAlchemyError msg))), db)
    | Some _, None =>
        (inr "Prescription updated successfully", prescription_written env rid u db)
    end.
Proof.
  unfold run, update_prescription. unfold_handlers. simpl.
  destruct (prescriptions db !! rid) as [r|] eqn:Hr; simpl; [|reflexivity].
  destruct (commit_error env); simpl; [reflexivity|].
  rewrite lookup_alter_eq, Hr. reflexivity.
Qed.

Lemma get_prescription_run rid db :
  run (get_prescription rid) db
  = match prescriptions db !! rid with
    | Some r => (inr r, db)
    | None => (inl (HTTPException 404 (Text "Prescription not found")), db)
    end.
Proof.
  unfold run, get_prescription. unfold_handlers. simpl. by destruct (prescriptions db !! rid).
Qed.

(** X14: the two updates of a lab order answer a missing lab order
    differently.  For a lab order that does not exist,
    [update_lab_order_notes] answers 404 "Lab order not found", while
    [update_lab_order_status], given a status of the four, raises the
    [AttributeError] of reading [HTTP_404_NOT_FOUND] off its string parameter
    and is answered 500.  Neither writes. *)
Theorem missing_lab_order_404_or_500 env lab_order_id notes status db :
  lab_orders db !! lab_order_id = None →
  status ∈ LabOrder_statuses →
  run (update_lab_order_notes env lab_order_id notes) db
    = (inl (HTTPException 404 (Text "Lab order not found")), db) ∧
  run (update_lab_order_status env lab_order_id status) db
    = (inl (AttributeError "str" "HTTP_404_NOT_FOUND"), db) ∧
  response_status_code (error_response (AttributeError "str" "HTTP_404_NOT_FOUND")) = 500.
Proof.
  intros Hnone Hst. rewrite update_lab_order_notes_run, update_lab_order_status_run, Hnone.
  rewrite bool_decide_eq_true_2 by done. done.
Qed.

Lemma completed_is_lab_status : "completed" ∈ LabOrder_statuses.
Proof. unfold LabOrder_statuses. do 2 apply list_elem_of_further. apply list_elem_of_here. Qed.

Lemma missing_lab_order_404_or_500_witness :
  run (update_lab_order_notes at_200 7 "rush") lab
    = (inl (HTTPException 404 (Text "Lab order not found")), lab) ∧
  run (update_lab_order_status at_200 7 "completed") lab
    = (inl (AttributeError "str" "HTTP_404_NOT_FOUND"), lab).
Proof.
  destruct (missing_lab_order_404_or_500 at_200 7 "rush" "completed" lab eq_refl
              completed_is_lab_status) as (Hnotes & Hstatus & _).
  by split.
Defined.

(** X15: a status update and a notes update of the same lab order do not
    disturb each other.  For a lab order that exists, a status of the four
    and commits that are not refused, both succeed in either order, and in
    either order the lab order ends with the new status, the new notes, and
    the key, prescription and [created_at] it had; only [updated_at] tells
    the orders apart, being the clock of the later request. *)
Theorem lab_order_status_and_notes_commute env1 env2 lab_order_id status notes db o :
  lab_orders db !! lab_order_id = Some o →
  status ∈ LabOrder_statuses →
  commit_error env1 = None →
  commit_error env2 = None →
  let final := λ t, LabOrder.mk (LabOrder.id o) (LabOrder.prescription_id o) status
                      (Some notes) (LabOrder.created_at o) t in
  ∃ db1 db12 db2 db21,
    run (update_lab_order_status env1 lab_order_id status) db
      = (inr "Lab order status updated successfully", db1) ∧
    run (update_lab_order_notes env2 lab_order_id notes) db1
      = (inr "Lab order notes updated successfully", db12) ∧
    run (update_lab_order_notes env2 lab_order_id notes) db
      = (inr "Lab order notes updated successfully", db2) ∧
    run (update_lab_order_status env1 lab_order_id status) db2
      = (inr "Lab order status updated successfully", db21) ∧
    lab_orders db12 !! lab_order_id = Some (final (utcnow env2)) ∧
    lab_orders db21 !! lab_order_id = Some (final (utcnow env1)) ∧
    (∀ lid, lid ≠ lab_order_id →
       lab_orders db12 !! lid = lab_orders db !! lid ∧
       lab_orders db21 !! lid = lab_orders db !! lid).
Proof.
  intros Ho Hst Hc1 Hc2 final.
  exists (lab_order_status_written env1 lab_order_id status db),
         (lab_order_notes_written env2 lab_order_id notes
            (lab_order_status_written env1 lab_order_id status db)),
         (lab_order_notes_written env2 lab_order_id notes db),
         (lab_order_status_written env1 lab_order_id status
            (lab_order_notes_written env2 lab_order_id notes db)).
  rewrite !update_lab_order_status_run, !update_lab_order_notes_run.
  rewrite bool_decide_eq_true_2 by done. rewrite Ho, Hc1, Hc2. simpl.
  rewrite !lookup_alter_eq, Ho. simpl.
  split; [done|]. split; [done|]. split; [done|]. split; [done|].
  split; [done|]. split; [done|].
  intros lid Hne. by rewrite !lookup_alter_ne.
Qed.

Lemma lab_order_status_and_notes_commute_witness :
  ∃ db1 db12,
    run (update_lab_order_status at_200 1 "completed") lab
      = (inr "Lab order status updated successfully", db1) ∧
    run (update_lab_order_notes at_300 1 "rush") db1
      = (inr "Lab order notes updated successfully", db12) ∧
    lab_orders db12 !! 1 = Some (LabOrder.mk 1 1 "completed" (Some "rush") 100 300).
Proof.
  destruct (lab_order_status_and_notes_commute at_200 at_300 1 "completed" "rush" lab
              lab_order_1 eq_refl completed_is_lab_status eq_refl eq_refl)
    as (db1 & db12 & _ & _ & H1 & H12 & _ & _ & Hfinal & _).
  exists db1, db12. by repeat split.
Defined.

(** X16: [create_lab_order] does not check the status.  For a payload whose
    prescription exists and a commit that is not refused it succeeds
    whatever the status string is: the lab order returned has a new key and
    the prescription, status and notes of the payload as they came,
    [get_lab_order] returns it, and the lab orders that were there stay.
    For a payload whose prescription does not exist it answers 404 and
    writes nothing. *)
Theorem create_lab_order_stores_any_status env lab_order db :
  (prescriptions db !! LabOrderBase.prescription_id lab_order = None →
   run (create_lab_order env lab_order) db
   = (inl (HTTPException 404 (Text "Prescription not found")), db)) ∧
  (is_Some (prescriptions db !! LabOrderBase.prescription_id lab_order) →
   commit_error env = None →
   ∃ o db',
     run (create_lab_order env lab_order) db = (inr o, db') ∧
     lab_orders db !! LabOrder.id o = None ∧
     LabOrder.prescription_id o = LabOrderBase.prescription_id lab_order ∧
     LabOrder.status o = LabOrderBase.status lab_order ∧
     LabOrder.notes o = LabOrderBase.notes lab_order ∧
     run (get_lab_order (LabOrder.id o)) db' = (inr o, db') ∧
     (∀ lid o', lab_orders db !! lid = Some o' → lab_orders db' !! lid = Some o')).
Proof.
  rewrite create_lab_order_run. split.
  - by intros ->.
  - intros [r Hr] Hc. rewrite Hr, Hc. eexists _, _. split; [reflexivity|]. simpl.
    split; [apply next_id_fresh|]. split; [done|]. split; [done|]. split; [done|]. split.
    + rewrite get_lab_order_run. simpl. by rewrite lookup_insert_eq.
    + intros lid o' Ho'. rewrite lookup_insert_ne; [done|].
      intros <-. by rewrite next_id_fresh in Ho'.
Qed.

Lemma create_lab_order_stores_any_status_witness :
  ∃ o db',
    run (create_lab_order at_300 (LabOrderBase.mk 1 "shipped" None)) clinic = (inr o, db') ∧
    LabOrder.id o = 2 ∧ LabOrder.status o = "shipped" ∧
    lab_orders db' !! 1 = Some lab_order_1.
Proof.
  destruct (proj2 (create_lab_order_stores_any_status at_300
                     (LabOrderBase.mk 1 "shipped" None) clinic))
    as (o & db' & Hrun & _ & _ & Hst & _ & _ & Hkeep); [by eexists|reflexivity|].
  exists o, db'. split; [exact Hrun|].
  assert (o = new_lab_order at_300 (LabOrderBase.mk 1 "shipped" None) clinic) as Ho.
  { rewrite create_lab_order_run in Hrun. simpl in Hrun. by injection Hrun as <- _. }
  split; [by rewrite Ho|]. split; [exact Hst|]. by apply Hkeep.
Defined.

(** X17: which handlers keep the statuses of the lab orders within
    {pending, in-progress, completed, cancelled}.  When every lab order has
    one of the four, every lab order still has after
    [update_lab_order_status] and after [update_lab_order_notes], whatever
    the request; after [create_lab_order] it has when the status of the
    payload is one of the four, and, when the lab order is created, only
    then. *)
Theorem lab_statuses_stay_valid db :
  lab_statuses_valid db →
  (∀ env lid status, lab_statuses_valid (run (update_lab_order_status env lid status) db).2) ∧
  (∀ env lid notes, lab_statuses_valid (run (update_lab_order_notes env lid notes) db).2) ∧
  (∀ env lab_order, LabOrderBase.status lab_order ∈ LabOrder_statuses →
     lab_statuses_valid (run (create_lab_order env lab_order) db).2) ∧
  (∀ env lab_order o db', run (create_lab_order env lab_order) db = (inr o, db') →
     lab_statuses_valid db' → LabOrderBase.status lab_order ∈ LabOrder_statuses).
Proof.
  intros Hinv. split; [|split; [|split]].
  - intros env lid status. rewrite update_lab_order_status_run.
    destruct (bool_decide (status ∈ LabOrder_statuses)) eqn:Hst; [|done].
    apply bool_decide_eq_true in Hst.
    destruct (lab_orders db !! lid) as [o|] eqn:Ho; [|done].
    destruct (commit_error env); [done|]. simpl.
    intros lid' o' Ho'. simpl in Ho'. rewrite lookup_alter in Ho'.
    case_decide as Hd; [|by eapply Hinv].
    subst lid'. rewrite Ho in Ho'. simpl in Ho'. by injection Ho' as <-.
  - intros env lid notes. rewrite update_lab_order_notes_run.
    destruct (lab_orders db !! lid) as [o|] eqn:Ho; [|done].
    destruct (commit_error env); [done|]. simpl.
    intros lid' o' Ho'. simpl in Ho'. rewrite lookup_alter in Ho'.
    case_decide as Hd; [|by eapply Hinv].
    subst lid'. rewrite Ho in Ho'. simpl in Ho'. injection Ho' as <-. simpl.
    by apply (Hinv lid o).
  - intros env lab_order Hst. rewrite create_lab_order_run.
    destruct (prescriptions db !! _); [|done]. destruct (commit_error env); [done|]. simpl.
    intros lid o Ho. simpl in Ho.
    destruct (decide (next_id (lab_orders db) = lid)) as [<-|Hne].
    + rewrite lookup_insert_eq in Ho. by injection Ho as <-.
    + rewrite lookup_insert_ne in Ho by done. by eapply Hinv.
  - intros env lab_order o db'. rewrite create_lab_order_run.
    destruct (prescriptions db !! _); [|discriminate].
    destruct (commit_error env); [discriminate|]. intros [= <- <-] Hvalid.
    apply (Hvalid (next_id (lab_orders db)) (new_lab_order env lab_order db)).
    simpl. apply lookup_insert_eq.
Qed.

Lemma lab_statuses_valid_lab : lab_statuses_valid lab.
Proof.
  intros lid o Ho. unfold lab in Ho. simpl in Ho.
  apply lookup_singleton_Some in Ho as [_ <-]. apply list_elem_of_here.
Qed.

Lemma lab_statuses_stay_valid_witness :
  lab_statuses_valid (run (update_lab_order_status at_200 1 "completed") lab).2 ∧
  lab_statuses_valid (run (update_lab_order_notes at_200 1 "rush") lab).2.
Proof.
  destruct (lab_statuses_stay_valid lab lab_statuses_valid_lab) as (Hst & Hnotes & _).
  split; [apply Hst|apply Hnotes].
Defined.

(** X18: a prescription that is updated reads back as written.  For a
    prescription that exists and a commit that is not refused,
    [update_prescription] succeeds and [get_prescription] then returns the
    prescription with the fields of the payload, the clock of the request as
    [updated_at], and the key, order and [created_at] it had; the other
    prescriptions are as they were.  For a prescription that does not exist
    it answers 404 and writes nothing. *)
Theorem update_prescription_then_get env prescription_id prescription_update db :
  (prescriptions db !! prescription_id = None →
   run (update_prescription env prescription_id prescription_update) db
   = (inl (HTTPException 404 (Text "Prescription not found")), db)) ∧
  (∀ r, prescriptions db !! prescription_id = Some r → commit_error env = None →
   ∃ db',
     run (update_prescription env prescription_id prescription_update) db
       = (inr "Prescription updated successfully", db') ∧
     run (get_prescription prescription_id) db'
       = (inr (Prescription.mk (Prescription.id r) (Prescription.order_id r)
                 prescription_update (Prescription.created_at r) (utcnow env)), db') ∧
     (∀ rid, rid ≠ prescription_id → prescriptions db' !! rid = prescriptions db !! rid)).
Proof.
  rewrite update_prescription_run. split.
  - by intros ->.
  - intros r Hr Hc. rewrite Hr, Hc. eexists. split; [reflexivity|].
    rewrite get_prescription_run. simpl. rewrite lookup_alter_eq, Hr. simpl.
    split; [done|]. intros rid Hne. by rewrite lookup_alter_ne.
Qed.

Lemma update_prescription_then_get_witness :
  ∃ db',
    run (update_prescription at_300 1 progressive) clinic
      = (inr "Prescription updated successfully", db') ∧
    run (get_prescription 1) db' = (inr (Prescription.mk 1 1 progressive 200 300), db').
Proof.
  destruct (proj2 (update_prescription_then_get at_300 1 progressive clinic)
              prescription_1 eq_refl eq_refl) as (db' & Hrun & Hget & _).
  exists db'. by split.
Defined.

(** ** Cancelling an order *)


